(** * Contacts REST backend: authentication, token and contact queries

    A shallow embedding of the request handlers of the contacts backend
    (src/services/auth.py, src/repository/users.py, src/repository/contacts.py,
    src/routes/auth.py, src/routes/contacts.py) and the properties of its
    session flow and of its contact queries.

    Python exceptions are values of [result]; the database session, the
    Redis connection and the clock are passed explicitly. *)

From Stdlib Require Import ZArith Lia.
From stdpp Require Import gmap strings list fin_maps.

Local Open Scope string_scope.
Local Open Scope Z_scope.

(** ** Exceptions and results *)

(** The exceptions the handlers can let escape: Python's own and those of
    the client libraries (redis, pickle, passlib). *)
Inductive PyExc :=
  | AttributeError
  | TypeError
  | KeyError (key : string)
  | ValueError
  | ConnectionError
  | UnpicklingError
  | UnknownHashError.

(** fastapi.HTTPException(status_code, detail, headers). *)
Record HTTPException := mkHTTPException {
  status_code : Z;
  detail : string;
  headers : list (string * string)
}.

Definition HTTP_401_UNAUTHORIZED : Z := 401.
Definition HTTP_404_NOT_FOUND : Z := 404.
Definition HTTP_422_UNPROCESSABLE_ENTITY : Z := 422.

(** What a call ends with: a value, an [HTTPException] (which the framework
    turns into a response of that status) or any other exception, which no
    handler of the application catches. *)
Inductive result (A : Type) :=
  | Return (a : A)
  | RaiseHTTP (e : HTTPException)
  | Raise (e : PyExc).
Arguments Return {A} a.
Arguments RaiseHTTP {A} e.
Arguments Raise {A} e.

#[global] Instance result_ret : MRet result := fun A a => Return a.
#[global] Instance result_bind : MBind result := fun A B f m =>
  match m with
  | Return a => f a
  | RaiseHTTP e => RaiseHTTP e
  | Raise e => Raise e
  end.

(** The request failed with 401 Unauthorized. *)
Definition is_unauthorized {A} (r : result A) : Prop :=
  match r with
  | RaiseHTTP e => status_code e = HTTP_401_UNAUTHORIZED
  | _ => False
  end.

(** An exception other than [HTTPException] escaped the handler. *)
Definition crashed {A} (r : result A) : Prop :=
  match r with
  | Raise _ => True
  | _ => False
  end.

(** ** JSON Web Tokens (python-jose) *)

(** A claim value: the handlers store strings ([sub], [scope]) and
    numeric dates ([iat], [exp], seconds since the epoch). *)
Inductive claim :=
  | CStr (s : string)
  | CNum (n : Z).

#[global] Instance claim_eq_dec : EqDecision claim.
Proof. solve_decision. Defined.

(** A bearer string.  The compact serialisation is deterministic in the
    key, the algorithm and the claims, so a signed token is identified with
    that triple; any other string is [Opaque]. *)
Inductive token :=
  | Jws (key alg : string) (payload : gmap string claim)
  | Opaque (s : string).

#[global] Instance token_eq_dec : EqDecision token.
Proof. solve_decision. Defined.

(** jwt.encode(claims, key, algorithm) *)
Definition jwt_encode (claims : gmap string claim) (key algorithm : string) : token :=
  Jws key algorithm claims.

Definition is_digit (a : Ascii.ascii) : bool :=
  (48 <=? Ascii.nat_of_ascii a)%nat && (Ascii.nat_of_ascii a <=? 57)%nat.

Fixpoint digits_value (s : string) (acc : Z) : option Z :=
  match s with
  | EmptyString => Some acc
  | String a s' =>
      if is_digit a then digits_value s' (10 * acc + Z.of_nat (Ascii.nat_of_ascii a) - 48)
      else None
  end.

(** int(value), which jwt.decode applies to the time claims and guards
    with `except ValueError`: a number is itself, and a string counts when
    it is a plain run of 1 to 4300 decimal digits.  Strings that int()
    reads in another spelling (sign, spaces, underscores, other digits) are
    taken as rejected, which only makes the decoder below refuse more. *)
Definition py_int (c : claim) : option Z :=
  match c with
  | CNum n => Some n
  | CStr s =>
      if ((1 <=? String.length s)%nat && (String.length s <=? 4300)%nat)%bool
      then digits_value s 0 else None
  end.

(** The checks of jwt.decode on the registered claims, as called by the
    token manager: no audience, issuer, subject or access token is given
    and the leeway is 0. *)

(** [iat], when present, is an integer. *)
Definition validate_iat (payload : gmap string claim) : bool :=
  match payload !! "iat" with
  | None => true
  | Some c => bool_decide (is_Some (py_int c))
  end.

(** [nbf], when present, is an integer not after the current time. *)
Definition validate_nbf (payload : gmap string claim) (now : Z) : bool :=
  match payload !! "nbf" with
  | None => true
  | Some c =>
      match py_int c with
      | Some n => n <=? now
      | None => false
      end
  end.

(** [exp]: a token without it passes; a token is expired once [exp] lies
    before the current time. *)
Definition validate_exp (payload : gmap string claim) (now : Z) : bool :=
  match payload !! "exp" with
  | None => true
  | Some c =>
      match py_int c with
      | Some e => now <=? e
      | None => false
      end
  end.

(** [aud]: the caller names no audience, and no audience claim contains
    None, so a token that carries the claim is refused. *)
Definition validate_aud (payload : gmap string claim) : bool :=
  match payload !! "aud" with
  | None => true
  | Some _ => false
  end.

(** [sub], when present, is a string. *)
Definition validate_sub (payload : gmap string claim) : bool :=
  match payload !! "sub" with
  | Some (CNum _) => false
  | _ => true
  end.

(** [jti], when present, is a string. *)
Definition validate_jti (payload : gmap string claim) : bool :=
  match payload !! "jti" with
  | Some (CNum _) => false
  | _ => true
  end.

(** [at_hash]: the caller gives no access token to compare with, so a
    token that carries the claim is refused. *)
Definition validate_at_hash (payload : gmap string claim) : bool :=
  match payload !! "at_hash" with
  | None => true
  | Some _ => false
  end.

Definition validate_claims (payload : gmap string claim) (now : Z) : bool :=
  validate_iat payload && validate_nbf payload now && validate_exp payload now
  && validate_aud payload && validate_sub payload && validate_jti payload
  && validate_at_hash payload.

(** jwt.decode(token, key, algorithms): the claims, or [None] for every
    JWTError (bad signature, unlisted algorithm, expired, a registered
    claim that fails its check, malformed). *)
Definition jwt_decode (t : token) (key : string) (algorithms : list string)
    (now : Z) : option (gmap string claim) :=
  match t with
  | Jws k a payload =>
      if bool_decide (k = key) && bool_decide (a ∈ algorithms)
         && validate_claims payload now
      then Some payload else None
  | Opaque _ => None
  end.

(** The instants datetime can hold, in seconds since the epoch: from
    0001-01-01 00:00:00 to 9999-12-31 23:59:59.  Adding a timedelta that
    leaves this range raises OverflowError; the issuers below are followed
    within it. *)
Definition datetime_min : Z := -62135596800.
Definition datetime_max : Z := 253402300799.
Definition in_datetime_range (t : Z) : bool :=
  (datetime_min <=? t) && (t <=? datetime_max).

(** ** Token manager (src/services/auth.py) *)

(** The class attributes of [TokenManager] read from the settings. *)
Record TokenManager := mkTokenManager {
  SECRET_KEY : string;
  ALGORITHM : string
}.

(** `if expires_delta:` holds for a given, non-zero number of seconds. *)
Definition truthy_delta (expires_delta : option Z) : option Z :=
  match expires_delta with
  | Some d => if d =? 0 then None else Some d
  | None => None
  end.

(** The three issuers.  In the code, utcnow() + timedelta(...) raises
    OverflowError when the expiry leaves the range of datetime
    ([in_datetime_range]); the definitions give the token of the other
    case, which is the only one where a token exists. *)
Definition create_access_token (self : TokenManager) (data : gmap string claim)
    (expires_delta : option Z) (utcnow : Z) : token :=
  let to_encode := data in
  let expire :=
    match truthy_delta expires_delta with
    | Some d => utcnow + d
    | None => utcnow + 15 * 60
    end in
  let to_encode :=
    <["scope" := CStr "access_token"]>
      (<["exp" := CNum expire]> (<["iat" := CNum utcnow]> to_encode)) in
  jwt_encode to_encode (SECRET_KEY self) (ALGORITHM self).

Definition create_refresh_token (self : TokenManager) (data : gmap string claim)
    (expires_delta : option Z) (utcnow : Z) : token :=
  let to_encode := data in
  let expire :=
    match truthy_delta expires_delta with
    | Some d => utcnow + d
    | None => utcnow + 7 * 86400
    end in
  let to_encode :=
    <["scope" := CStr "refresh_token"]>
      (<["exp" := CNum expire]> (<["iat" := CNum utcnow]> to_encode)) in
  jwt_encode to_encode (SECRET_KEY self) (ALGORITHM self).

Definition create_email_token (self : TokenManager) (data : gmap string claim)
    (utcnow : Z) : token :=
  let to_encode := data in
  let expire := utcnow + 7 * 86400 in
  let to_encode :=
    <["scope" := CStr "email_token"]>
      (<["exp" := CNum expire]> (<["iat" := CNum utcnow]> to_encode)) in
  jwt_encode to_encode (SECRET_KEY self) (ALGORITHM self).

(** payload[key]: a missing key is a KeyError. *)
Definition getitem (payload : gmap string claim) (key : string) : result claim :=
  match payload !! key with
  | Some v => Return v
  | None => Raise (KeyError key)
  end.

(** The subject read from decoded claims: jwt.decode has checked that it
    is a string. *)
Definition claim_str (c : claim) : string :=
  match c with
  | CStr s => s
  | CNum _ => ""
  end.

Definition decode_refresh_token (self : TokenManager) (refresh_token : token)
    (now : Z) : result string :=
  match jwt_decode refresh_token (SECRET_KEY self) [ALGORITHM self] now with
  | Some payload =>
      scope ← getitem payload "scope";
      if bool_decide (scope = CStr "refresh_token") then
        email ← getitem payload "sub";
        Return (claim_str email)
      else
        RaiseHTTP (mkHTTPException HTTP_401_UNAUTHORIZED "Invalid scope for token" [])
  | None =>
      RaiseHTTP (mkHTTPException HTTP_401_UNAUTHORIZED "Could not validate credentials" [])
  end.

(** get_email_from_token: when the scope is not "email_token" the body
    falls off its end and the function returns None. *)
Definition get_email_from_token (self : TokenManager) (t : token)
    (now : Z) : result (option string) :=
  match jwt_decode t (SECRET_KEY self) [ALGORITHM self] now with
  | Some payload =>
      scope ← getitem payload "scope";
      if bool_decide (scope = CStr "email_token") then
        email ← getitem payload "sub";
        Return (Some (claim_str email))
      else
        Return None
  | None =>
      RaiseHTTP (mkHTTPException HTTP_422_UNPROCESSABLE_ENTITY
                   "Invalid token for email verification" [])
  end.

(** ** Persistent store (src/database/models.py, through the ORM session) *)

Inductive Role := admin | moderator | user.

#[global] Instance Role_eq_dec : EqDecision Role.
Proof. solve_decision. Defined.

Module User.
(** Modelled from the spec: the declaration of the [User] table
    (src/database/models.py) is not part of the sources; the columns are
    those of the spec's Identity (unique email, username, hashed password,
    confirmation flag, nullable current refresh token, role, avatar) and
    the primary key of [UserResponse]. *)
Record t := mk {
  id : Z;
  username : string;
  email : string;
  password : string;
  confirmed : bool;
  refresh_token : option token;
  roles : Role;
  avatar : string
}.

Definition set_refresh_token (u : t) (rt : option token) : t :=
  mk (id u) (username u) (email u) (password u) (confirmed u) rt (roles u) (avatar u).
End User.

#[global] Instance User_eq_dec : EqDecision User.t.
Proof. solve_decision. Defined.

(** A calendar date (datetime.date): year, month, day. *)
Record date := mkdate {
  year : Z;
  month : Z;
  day : Z
}.

#[global] Instance date_eq_dec : EqDecision date.
Proof. solve_decision. Defined.

Module Contact.
(** Modelled from the spec: the declaration of the [Contact] table
    (src/database/models.py) is not part of the sources; the columns are
    those [create] fills and [ContactResponse] returns, with the owner
    kept as the owning user's primary key. *)
Record t := mk {
  id : Z;
  first_name : string;
  last_name : string;
  email : string;
  phone : option string;
  birthday : option date;
  comments : option string;
  favorite : bool;
  user_id : Z
}.
End Contact.

#[global] Instance Contact_eq_dec : EqDecision Contact.t.
Proof. solve_decision. Defined.

(** The database as a session sees it: the rows of both tables, in the
    order a query returns them. *)
Record Session := mkSession {
  users : list User.t;
  contacts : list Contact.t
}.

(** ** User repository (src/repository/users.py) *)

(** db.query(User).filter_by(email=email).first() *)
Definition get_user_by_email (email : string) (db : Session) : option User.t :=
  List.find (fun u => bool_decide (User.email u = email)) (users db).

(** user.refresh_token = refresh_token; db.commit(): the row of [user]
    (found by its primary key) gets the new value. *)
Definition update_token (user : User.t) (refresh_token : option token)
    (db : Session) : Session :=
  mkSession
    (List.map (fun u => if bool_decide (User.id u = User.id user)
                        then User.set_refresh_token u refresh_token else u)
              (users db))
    (contacts db).

(** ** Redis and pickle *)

(** The bytes stored under a key: a pickled user, or bytes that
    pickle.loads rejects. *)
Inductive pickled :=
  | Pickle (u : User.t)
  | Garbled (raw : string).

Definition pickle_dumps (u : User.t) : pickled := Pickle u.

Definition pickle_loads (b : pickled) : result User.t :=
  match b with
  | Pickle u => Return u
  | Garbled _ => Raise UnpicklingError
  end.

(** The Redis server as the client sees it: whether it answers, and the
    stored values with the time at which each expires, if any; a key is
    still there at the instant of its expiry and gone after it.  Every
    command to a server that does not answer raises redis.ConnectionError. *)
Record Redis := mkRedis {
  reachable : bool;
  store : gmap string (pickled * option Z)
}.

Definition redis_get (r : Redis) (key : string) (now : Z) : result (option pickled) :=
  if reachable r then
    match store r !! key with
    | Some (v, Some e) => Return (if now <=? e then Some v else None)
    | Some (v, None) => Return (Some v)
    | None => Return None
    end
  else Raise ConnectionError.

Definition redis_set (r : Redis) (key : string) (v : pickled) : result Redis :=
  if reachable r then Return (mkRedis true (<[key := (v, None)]> (store r)))
  else Raise ConnectionError.

Definition redis_expire (r : Redis) (key : string) (seconds now : Z) : result Redis :=
  if reachable r then
    Return (mkRedis true (alter (fun ve => (ve.1, Some (now + seconds))) key (store r)))
  else Raise ConnectionError.

(** try: body except Exception: handler, for a handler that returns. *)
Definition try_except {A} (body : result A) (handler : A) : A :=
  match body with
  | Return a => a
  | _ => handler
  end.

(** get_cache_user_by_email(email, cache): the cached read of the
    repository; every exception of the cache or of pickle is caught and
    the answer is then None. *)
Definition get_cache_user_by_email (email : string) (cache : option Redis)
    (now : Z) : option User.t :=
  if bool_decide (email = "") then None
  else
    try_except
      (user_bytes ← match cache with
                    | Some c => redis_get c ("user:" +:+ email) now
                    | None => Return None
                    end;
       match user_bytes with
       | None => Return None
       | Some b => u ← pickle_loads b; Return (Some u)
       end)
      None.


(** ** Session resolver (TokenManager.get_current_user) *)

Definition credentials_exception : HTTPException :=
  mkHTTPException HTTP_401_UNAUTHORIZED "Could not validate credentials"
    [("WWW-Authenticate", "Bearer")].

(** The resolver reads and fills the cache through the Redis client
    directly; the result comes with the cache as the request leaves it. *)
Definition get_current_user (self : TokenManager) (t : token) (db : Session)
    (r : Redis) (now : Z) : result User.t * Redis :=
  match jwt_decode t (SECRET_KEY self) [ALGORITHM self] now with
  | None => (RaiseHTTP credentials_exception, r)
  | Some payload =>
      if bool_decide (payload !! "scope" = Some (CStr "access_token")) then
        match payload !! "sub" with
        | None => (RaiseHTTP credentials_exception, r)
        | Some sub =>
            let email := claim_str sub in
            let key := "user:" +:+ email in
            match redis_get r key now with
            | Return None =>
                match get_user_by_email email db with
                | None => (RaiseHTTP credentials_exception, r)
                | Some u =>
                    match redis_set r key (pickle_dumps u) with
                    | Return r1 =>
                        match redis_expire r1 key 900 now with
                        | Return r2 => (Return u, r2)
                        | RaiseHTTP e => (RaiseHTTP e, r1)
                        | Raise e => (Raise e, r1)
                        end
                    | RaiseHTTP e => (RaiseHTTP e, r)
                    | Raise e => (Raise e, r)
                    end
                end
            | Return (Some bytes) =>
                match pickle_loads bytes with
                | Return u => (Return u, r)
                | RaiseHTTP e => (RaiseHTTP e, r)
                | Raise e => (Raise e, r)
                end
            | RaiseHTTP e => (RaiseHTTP e, r)
            | Raise e => (Raise e, r)
            end
        end
      else (RaiseHTTP credentials_exception, r)
  end.

(** ** Credential hasher (PasswordManager) *)

(** passlib's CryptContext(schemes=["bcrypt"]): [identify] tells whether a
    stored string carries the identifier of a configured scheme, [parses]
    whether that scheme can read it as one of its hashes (for bcrypt: the
    identifier, a two-digit cost, 22 characters of salt and 31 of digest),
    and [verify_hash] compares a secret with a hash the scheme has read. *)
Record CryptContext := mkCryptContext {
  identify : string -> bool;
  parses : string -> bool;
  verify_hash : string -> string -> bool
}.

(** A well-formed output of the hashing algorithm: a string the
    configured scheme identifies and can read. *)
Definition well_formed_hash (ctx : CryptContext) (hash : string) : bool :=
  identify ctx hash && parses ctx hash.

(** CryptContext.verify(secret, hash): a string that no configured scheme
    identifies raises passlib.exc.UnknownHashError, and a string that
    carries a scheme's identifier but cannot be read as its hash raises
    ValueError. *)
Definition CryptContext_verify (ctx : CryptContext) (secret hash : string) : result bool :=
  if identify ctx hash then
    if parses ctx hash then Return (verify_hash ctx secret hash)
    else Raise ValueError
  else Raise UnknownHashError.

Record PasswordManager := mkPasswordManager {
  pwd_context : CryptContext
}.

Definition verify_password (self : PasswordManager) (plain_password hashed_password : string)
    : result bool :=
  CryptContext_verify (pwd_context self) plain_password hashed_password.

Record AuthService := mkAuthService {
  password_manager : PasswordManager;
  token_manager : TokenManager
}.

(** ** Authentication routes (src/routes/auth.py) *)

(** The response model of login and refresh. *)
Record TokenModel := mkTokenModel {
  access_token : token;
  tm_refresh_token : token;
  token_type : string
}.

(** The login form: the email travels in [username]. *)
Record OAuth2PasswordRequestForm := mkForm {
  form_username : string;
  form_password : string
}.

Definition sub_claims (email : string) : gmap string claim :=
  {[ "sub" := CStr email ]}.

Definition login (auth_service : AuthService) (body : OAuth2PasswordRequestForm)
    (db : Session) (now : Z) : result TokenModel * Session :=
  match get_user_by_email (form_username body) db with
  | None =>
      (RaiseHTTP (mkHTTPException HTTP_401_UNAUTHORIZED "Invalid email" []), db)
  | Some u =>
      if negb (User.confirmed u) then
        (RaiseHTTP (mkHTTPException HTTP_401_UNAUTHORIZED "Email not confirmed" []), db)
      else
        match verify_password (password_manager auth_service)
                (form_password body) (User.password u) with
        | Return false =>
            (RaiseHTTP (mkHTTPException HTTP_401_UNAUTHORIZED "Invalid password" []), db)
        | Return true =>
            let access :=
              create_access_token (token_manager auth_service)
                (sub_claims (User.email u)) None now in
            let refresh :=
              create_refresh_token (token_manager auth_service)
                (sub_claims (User.email u)) None now in
            (Return (mkTokenModel access refresh "bearer"),
             update_token u (Some refresh) db)
        | RaiseHTTP e => (RaiseHTTP e, db)
        | Raise e => (Raise e, db)
        end
  end.

(** An argument of a Python call: a bearer string or a dict of claims. *)
Inductive pyarg :=
  | ArgStr (t : token)
  | ArgDict (d : gmap string claim).

(** A call decode_refresh_token(kw=arg) with one keyword argument.  The
    signature is (self, refresh_token): any other keyword is a TypeError
    raised when the call is bound, before the body runs; a dict in place
    of the string fails inside jwt.decode, which calls string methods. *)
Definition decode_refresh_token_kw (self : TokenManager) (kw : string) (arg : pyarg)
    (now : Z) : result string :=
  if bool_decide (kw = "refresh_token") then
    match arg with
    | ArgStr t => decode_refresh_token self t now
    | ArgDict _ => Raise AttributeError
    end
  else Raise TypeError.

(** GET /auth/refresh_token.  [get_user_by_email] returns None for an
    unknown email, and reading user.refresh_token from None is an
    AttributeError.  The new refresh token is asked from
    decode_refresh_token(data={"sub": email}); what that call returned
    would be stored as the user's refresh token. *)
Definition refresh_token (auth_service : AuthService) (credentials : token)
    (db : Session) (now : Z) : result TokenModel * Session :=
  let tok := credentials in
  match decode_refresh_token (token_manager auth_service) tok now with
  | Return email =>
      match get_user_by_email email db with
      | None => (Raise AttributeError, db)
      | Some u =>
          if bool_decide (User.refresh_token u ≠ Some tok) then
            (RaiseHTTP (mkHTTPException HTTP_401_UNAUTHORIZED "Invalid refresh token" []),
             update_token u None db)
          else
            let access :=
              create_access_token (token_manager auth_service) (sub_claims email) None now in
            match decode_refresh_token_kw (token_manager auth_service)
                    "data" (ArgDict (sub_claims email)) now with
            | Return refresh =>
                (Return (mkTokenModel access (Opaque refresh) "bearer"),
                 update_token u (Some (Opaque refresh)) db)
            | RaiseHTTP e => (RaiseHTTP e, db)
            | Raise e => (Raise e, db)
            end
      end
  | RaiseHTTP e => (RaiseHTTP e, db)
  | Raise e => (Raise e, db)
  end.

(** ** Contact repository and routes (src/repository/contacts.py,
       src/routes/contacts.py) *)

(** db.query(Contact).filter_by(id=contact_id, user=user).first() *)
Definition get_contact_by_id (contact_id : Z) (db : Session) (u : User.t)
    : option Contact.t :=
  List.find (fun c => bool_decide (Contact.id c = contact_id)
                      && bool_decide (Contact.user_id c = User.id u))
            (contacts db).

(** GET /contacts/{contact_id}, for the user the resolver returned.  (The
    validation of the path parameter belongs to the framework.) *)
Definition get_contact (contact_id : Z) (db : Session) (current_user : User.t)
    : result Contact.t :=
  match get_contact_by_id contact_id db current_user with
  | None => RaiseHTTP (mkHTTPException HTTP_404_NOT_FOUND "Not found" [])
  | Some contact => Return contact
  end.

(** *** Calendar arithmetic of datetime.date *)

Definition is_leap (y : Z) : bool :=
  (y mod 4 =? 0) && (negb (y mod 100 =? 0) || (y mod 400 =? 0)).

Definition days_in_month (y m : Z) : Z :=
  if (m =? 2) && is_leap y then 29
  else nth (Z.to_nat m) [-1; 31; 28; 31; 30; 31; 30; 31; 31; 30; 31; 30; 31] 0.

Definition days_before_month (y m : Z) : Z :=
  nth (Z.to_nat m) [-1; 0; 31; 59; 90; 120; 151; 181; 212; 243; 273; 304; 334] 0
  + (if (2 <? m) && is_leap y then 1 else 0).

Definition days_before_year (y : Z) : Z :=
  let y := y - 1 in y * 365 + y / 4 - y / 100 + y / 400.

(** The check of the constructor date(year, month, day). *)
Definition valid_date (d : date) : bool :=
  (1 <=? year d) && (year d <=? 9999)
  && (1 <=? month d) && (month d <=? 12)
  && (1 <=? day d) && (day d <=? days_in_month (year d) (month d)).

(** date.toordinal() *)
Definition toordinal (d : date) : Z :=
  days_before_year (year d) + days_before_month (year d) (month d) + day d.

(** date.replace(year=y): building the new date raises ValueError when
    the day does not exist in that year (29 February). *)
Definition replace_year (d : date) (y : Z) : result date :=
  let d' := mkdate y (month d) (day d) in
  if valid_date d' then Return d' else Raise ValueError.

(** d1 < d2 on dates: the order of (year, month, day). *)
Definition date_ltb (d1 d2 : date) : bool :=
  (year d1 <? year d2)
  || ((year d1 =? year d2)
      && ((month d1 <? month d2)
          || ((month d1 =? month d2) && (day d1 <? day d2)))).

(** x in range(n) *)
Definition in_range (x n : Z) : bool := (0 <=? x) && (x <? n).

(** *** Birthday search *)

(** The dict [par] the route builds: each of the keys "days", "skip" and
    "limit" may be missing. *)
Record BirthdayParams := mkPar {
  par_days : option Z;
  par_skip : option nat;
  par_limit : option nat
}.

(** query.offset(n): no offset for None. *)
Definition offset {A} (n : option nat) (rows : list A) : list A :=
  match n with
  | Some k => List.skipn k rows
  | None => rows
  end.

(** query.limit(n): no limit for None. *)
Definition limit {A} (n : option nat) (rows : list A) : list A :=
  match n with
  | Some k => List.firstn k rows
  | None => rows
  end.

(** db.query(Contact).filter_by(user=user).offset(skip).limit(limit): the
    rows the loop of [search_birthday] visits. *)
Definition birthday_page (par : BirthdayParams) (db : Session) (u : User.t)
    : list Contact.t :=
  limit (par_limit par)
    (offset (par_skip par)
       (List.filter (fun c => bool_decide (Contact.user_id c = User.id u))
                    (contacts db))).

(** The loop of [search_birthday] over the rows still to visit, with the
    list built so far. *)
Fixpoint scan_birthdays (rows : list Contact.t) (now : date) (days : Z)
    (birthdays_contacts : list Contact.t) : result (list Contact.t) :=
  match rows with
  | [] => Return birthdays_contacts
  | contact :: rest =>
      match Contact.birthday contact with
      | Some birthday =>
          birthday_this_year ← replace_year birthday (year now);
          let days_until_birthday := toordinal birthday_this_year - toordinal now in
          if in_range days_until_birthday days
          then scan_birthdays rest now days (birthdays_contacts ++ [contact])
          else scan_birthdays rest now days birthdays_contacts
      | None => scan_birthdays rest now days birthdays_contacts
      end
  end.

Definition search_birthday (par : BirthdayParams) (db : Session) (u : User.t)
    (today : date) : result (list Contact.t) :=
  let days_param := default 7 (par_days par) in
  let days := days_param in
  let days := days + 1 in
  let now := today in
  scan_birthdays (birthday_page par db u) now days [].

(** The test of the loop body on one row: the birthday exists, can be
    moved to the current year, and lies 0 to [days] - 1 days ahead. *)
Definition kept (now : date) (days : Z) (c : Contact.t) : Prop :=
  exists b d, Contact.birthday c = Some b
              /\ replace_year b (year now) = Return d
              /\ in_range (toordinal d - toordinal now) days = true.

(** No row makes date.replace raise: every birthday of [rows] exists in
    the year of [now]. *)
Definition birthdays_exist_in_year (now : date) (rows : list Contact.t) : Prop :=
  forall c b, In c rows -> Contact.birthday c = Some b ->
              valid_date (mkdate (year now) (month b) (day b)) = true.

(** ** Sample data *)

Module Sample.
Definition tm : TokenManager := mkTokenManager "s3cr3t" "HS256".

(** The characters of bcrypt's base64 alphabet: ".", "/", digits, letters. *)
Definition is_bcrypt64 (a : Ascii.ascii) : bool :=
  let n := Ascii.nat_of_ascii a in
  ((46 <=? n) && (n <=? 57) || (65 <=? n) && (n <=? 90)
   || (97 <=? n) && (n <=? 122))%nat.

Fixpoint all_chars (f : Ascii.ascii -> bool) (s : string) : bool :=
  match s with
  | EmptyString => true
  | String a s' => f a && all_chars f s'
  end.

(** The shape of a bcrypt hash with the identifier $2b$: 60 characters,
    the identifier, a cost of two digits from 04 to 31, "$", and 22 + 31
    characters of the alphabet. *)
Definition bcrypt_shape (h : string) : bool :=
  String.prefix "$2b$" h && (String.length h =? 60)%nat
  && match digits_value (String.substring 4 2 h) 0 with
     | Some cost => (4 <=? cost) && (cost <=? 31)
     | None => false
     end
  && String.eqb (String.substring 6 1 h) "$"
  && all_chars is_bcrypt64 (String.substring 7 53 h).

Definition alice_hash : string :=
  "$2b$12$AliceSaltAliceSaltAliceAliceDigestAliceDigestAliceDig".
Definition bob_hash : string :=
  "$2b$12$BobSaltBobSaltBobSaltBobDigestBobDigestBobDigestBobDi".
Definition eve_hash : string :=
  "$2b$12$EveSaltEveSaltEveSaltEveDigestEveDigestEveDigestEveDi".

(** The passwords of the sample and their hashes. *)
Definition known_hashes : list (string * string) :=
  [("pw123", alice_hash); ("hunter2", bob_hash); ("pw-eve", eve_hash)].

(** A stand-in for the bcrypt scheme, restricted to the identifier $2b$:
    it identifies and reads strings as passlib's bcrypt handler does, and
    in place of the digest computation it knows the hashes of the sample's
    passwords. *)
Definition ctx : CryptContext :=
  mkCryptContext (fun h => String.prefix "$2b$" h) bcrypt_shape
    (fun secret h =>
       existsb (fun p => String.eqb p.1 secret && String.eqb p.2 h) known_hashes).

Definition auth : AuthService := mkAuthService (mkPasswordManager ctx) tm.

Definition alice : User.t :=
  User.mk 1 "alice" "a@x.com" alice_hash true None user "avatar-a".
Definition bob : User.t :=
  User.mk 2 "bob" "b@x.com" bob_hash true None user "avatar-b".

Definition contact_of (cid owner : Z) (name : string) (b : option date) : Contact.t :=
  Contact.mk cid name "Doe" (name +:+ "@mail.com") None b None false owner.

Definition db : Session :=
  mkSession [alice; bob]
    [contact_of 1 1 "carol" (Some (mkdate 1990 3 8));
     contact_of 2 2 "dave" (Some (mkdate 1985 12 30))].

Definition redis_up : Redis := mkRedis true ∅.
Definition redis_down : Redis := mkRedis false ∅.

(** Alice's session after a login at time 1000. *)
Definition alice_login : result TokenModel * Session :=
  login auth (mkForm "a@x.com" "pw123") db 1000.
Definition alice_access : token :=
  create_access_token tm (sub_claims "a@x.com") None 1000.
Definition alice_refresh : token :=
  create_refresh_token tm (sub_claims "a@x.com") None 1000.
Definition db_logged_in : Session := alice_login.2.

(** A refresh token signed by the server for an email that has no row. *)
Definition ghost_refresh : token :=
  create_refresh_token tm (sub_claims "ghost@x.com") None 1000.

(** Alice's contacts for the birthday search: Frank (2 January), Carol
    (8 March) and Erin, born on 29 February. *)
Definition frank : Contact.t := contact_of 4 1 "frank" (Some (mkdate 1970 1 2)).
Definition carol : Contact.t := contact_of 1 1 "carol" (Some (mkdate 1990 3 8)).
Definition erin : Contact.t := contact_of 3 1 "erin" (Some (mkdate 2000 2 29)).

Definition db_frank_carol : Session := mkSession [alice; bob] [frank; carol].
Definition db_erin_carol : Session := mkSession [alice; bob] [erin; carol].

Definition week : BirthdayParams := mkPar (Some 7) (Some 0%nat) (Some 10%nat).
Definition week_first_row : BirthdayParams := mkPar (Some 7) (Some 0%nat) (Some 1%nat).
End Sample.

(** ** Further functions of the repositories and routes *)

Definition HTTP_400_BAD_REQUEST : Z := 400.
Definition HTTP_409_CONFLICT : Z := 409.

Definition set_confirmed (u : User.t) (c : bool) : User.t :=
  User.mk (User.id u) (User.username u) (User.email u) (User.password u) c
    (User.refresh_token u) (User.roles u) (User.avatar u).

Definition set_avatar (u : User.t) (url : string) : User.t :=
  User.mk (User.id u) (User.username u) (User.email u) (User.password u)
    (User.confirmed u) (User.refresh_token u) (User.roles u) url.

Definition set_favorite (c : Contact.t) (f : bool) : Contact.t :=
  Contact.mk (Contact.id c) (Contact.first_name c) (Contact.last_name c)
    (Contact.email c) (Contact.phone c) (Contact.birthday c) (Contact.comments c)
    f (Contact.user_id c).

(** The body of POST /auth/signup. *)
Record UserModel := mkUserModel {
  body_username : string;
  body_email : string;
  body_password : string
}.

(** A call of send_email queued on the background tasks. *)
Record SendEmail := mkSendEmail {
  to_email : string;
  to_username : string;
  host : string
}.

(** The primary key the database gives a new row: one no row has. *)
Definition fresh_id (ids : list Z) : Z := 1 + foldr Z.max 0 ids.

(** [get_user_by_email] on what [get_email_from_token] returned:
    filter_by(email=None) selects the rows with a NULL email, and no row
    has one. *)
Definition get_user_by_optional_email (email : option string) (db : Session)
    : option User.t :=
  match email with
  | Some e => get_user_by_email e db
  | None => None
  end.

Module repository_users.

(** Modelled from the spec: the column defaults of the [User] table
    (src/database/models.py) are not part of the sources; a new row is
    unconfirmed and holds no refresh token (spec, scenario 1), its role is
    the table's default [default_roles], and the email is the only unique
    column.  [gravatar] is Gravatar(email).get_image(). *)
Definition create_user (gravatar : string -> string) (default_roles : Role)
    (body : UserModel) (db : Session) : User.t * Session :=
  let new_user :=
    User.mk (fresh_id (List.map User.id (users db)))
      (body_username body) (body_email body) (body_password body)
      false None default_roles (gravatar (body_email body)) in
  (new_user, mkSession (users db ++ [new_user]) (contacts db)).

(** user = get_user_by_email(email, db); user.confirmed = True; db.commit() *)
Definition confirmed_email (email : string) (db : Session) : result unit * Session :=
  match get_user_by_email email db with
  | None => (Raise AttributeError, db)
  | Some u =>
      (Return tt,
       mkSession
         (List.map (fun x => if bool_decide (User.id x = User.id u)
                             then set_confirmed x true else x) (users db))
         (contacts db))
  end.

(** user = get_user_by_email(email, db); user.avatar = url; db.commit() *)
Definition update_avatar (email url : string) (db : Session) : result User.t * Session :=
  match get_user_by_email email db with
  | None => (Raise AttributeError, db)
  | Some u =>
      (Return (set_avatar u url),
       mkSession
         (List.map (fun x => if bool_decide (User.id x = User.id u)
                             then set_avatar x url else x) (users db))
         (contacts db))
  end.

End repository_users.

(** PasswordManager.get_password_hash: [hash] is pwd_context.hash with the
    salt it draws for this call. *)
Definition get_password_hash (self : PasswordManager) (hash : string -> string)
    (password : string) : string :=
  hash password.

(** POST /auth/signup: the response, the background tasks queued and the
    store afterwards. *)
Definition signup (auth_service : AuthService) (hash gravatar : string -> string)
    (default_roles : Role) (base_url : string) (body : UserModel) (db : Session)
    : result User.t * list SendEmail * Session :=
  match get_user_by_email (body_email body) db with
  | Some _ =>
      (RaiseHTTP (mkHTTPException HTTP_409_CONFLICT "Account already exists" []), [], db)
  | None =>
      let body :=
        mkUserModel (body_username body) (body_email body)
          (get_password_hash (password_manager auth_service) hash (body_password body)) in
      let (new_user, db') := repository_users.create_user gravatar default_roles body db in
      (Return new_user,
       [mkSendEmail (User.email new_user) (User.username new_user) base_url], db')
  end.

(** GET /auth/confirmed_email/{token}: the message of the response. *)
Definition confirmed_email (auth_service : AuthService) (t : token) (db : Session)
    (now : Z) : result string * Session :=
  match get_email_from_token (token_manager auth_service) t now with
  | Return email =>
      match email, get_user_by_optional_email email db with
      | Some e, Some u =>
          if User.confirmed u then (Return "Your email is already confirmed", db)
          else
            match repository_users.confirmed_email e db with
            | (Return _, db') => (Return "Email confirmed", db')
            | (RaiseHTTP err, db') => (RaiseHTTP err, db')
            | (Raise err, db') => (Raise err, db')
            end
      | _, _ =>
          (RaiseHTTP (mkHTTPException HTTP_400_BAD_REQUEST "Verification error" []), db)
      end
  | RaiseHTTP err => (RaiseHTTP err, db)
  | Raise err => (Raise err, db)
  end.

Module repository_contacts.

(** query.filter_by(user=user), then filter_by(favorite=favorite) when a
    value is given, then offset(skip).limit(limit).all() *)
Definition get_contacts (db : Session) (skip limit : nat) (u : User.t)
    (favorite : option bool) : list Contact.t :=
  let query :=
    List.filter (fun c => bool_decide (Contact.user_id c = User.id u)) (contacts db) in
  let query :=
    match favorite with
    | Some f => List.filter (fun c => bool_decide (Contact.favorite c = f)) query
    | None => query
    end in
  List.firstn limit (List.skipn skip query).

Definition get_all_contacts (db : Session) (skip limit : nat)
    (favorite : option bool) : list Contact.t :=
  let query := contacts db in
  let query :=
    match favorite with
    | Some f => List.filter (fun c => bool_decide (Contact.favorite c = f)) query
    | None => query
    end in
  List.firstn limit (List.skipn skip query).

(** db.query(Contact).filter_by(email=email, user=user).first() *)
Definition get_contact_by_email (email : string) (db : Session) (u : User.t)
    : option Contact.t :=
  List.find (fun c => bool_decide (Contact.email c = email)
                      && bool_decide (Contact.user_id c = User.id u))
            (contacts db).

(** favorite_update: the row of the contact (found by its primary key)
    gets body.favorite. *)
Definition favorite_update (contact_id : Z) (body_favorite : bool) (db : Session)
    (u : User.t) : option Contact.t * Session :=
  match get_contact_by_id contact_id db u with
  | Some contact =>
      (Some (set_favorite contact body_favorite),
       mkSession (users db)
         (List.map (fun c => if bool_decide (Contact.id c = Contact.id contact)
                             then set_favorite c body_favorite else c)
                   (contacts db)))
  | None => (None, db)
  end.

(** delete: db.delete(contact) removes the row of that primary key. *)
Definition delete (contact_id : Z) (db : Session) (u : User.t)
    : option Contact.t * Session :=
  match get_contact_by_id contact_id db u with
  | Some contact =>
      (Some contact,
       mkSession (users db)
         (List.filter (fun c => negb (bool_decide (Contact.id c = Contact.id contact)))
                      (contacts db)))
  | None => (None, db)
  end.

End repository_contacts.

(** DELETE /contacts/{contact_id} *)
Definition remove_contact (contact_id : Z) (db : Session) (current_user : User.t)
    : result unit * Session :=
  match repository_contacts.delete contact_id db current_user with
  | (None, db') =>
      (RaiseHTTP (mkHTTPException HTTP_404_NOT_FOUND "Not found" []), db')
  | (Some _, db') => (Return tt, db')
  end.

Module routes_contacts.

(** The bounds the birthdays route declares for its query parameters,
    Query(ge=1, le=30) for [days] and for [limit]: a request outside them is
    answered with 422 by the framework and does not reach the handler. *)
Definition birthdays_query_ok (days : Z) (limit : nat) : bool :=
  (1 <=? days) && (days <=? 30) && (1 <=? limit)%nat && (limit <=? 30)%nat.

(** The handler of GET /contacts/search/birthdays, which the framework
    calls with parameters that satisfy [birthdays_query_ok].  `if days:`
    is the handler's own test, and `if not contacts:` answers 404 for None
    and for the empty list. *)
Definition search_contacts (days : Z) (skip limit : nat) (db : Session)
    (current_user : User.t) (today : date) : result (list Contact.t) :=
  contacts ←
    (if days =? 0 then Return None
     else l ← search_birthday (mkPar (Some days) (Some skip) (Some limit))
                db current_user today;
          Return (Some l));
  match contacts with
  | None | Some [] =>
      RaiseHTTP (mkHTTPException HTTP_404_NOT_FOUND "No contacts found" [])
  | Some l => Return l
  end.

End routes_contacts.

(** *** The loop of [search_birthday], row by row *)

(** date.replace(year=now.year) succeeds on the row's birthday, if any. *)
Definition birthday_movable (now : date) (c : Contact.t) : bool :=
  match Contact.birthday c with
  | Some b => valid_date (mkdate (year now) (month b) (day b))
  | None => true
  end.

(** The row has a birthday that, moved to the year of [now], lies in
    range([days]) days ahead. *)
Definition birthday_due (now : date) (days : Z) (c : Contact.t) : bool :=
  match Contact.birthday c with
  | Some b =>
      in_range (toordinal (mkdate (year now) (month b) (day b)) - toordinal now) days
  | None => false
  end.

(** ** Sample scenarios *)

Module Scenario.

(** pwd_context.hash for the sample context: the hash of a sample
    password is the one the context knows. *)
Definition hash (secret : string) : string :=
  match List.find (fun p => String.eqb p.1 secret) Sample.known_hashes with
  | Some p => p.2
  | None => Sample.eve_hash
  end.
Definition gravatar (email : string) : string := "https://gravatar/" +:+ email.

Definition eve_body : UserModel := mkUserModel "eve" "e@x.com" "pw-eve".

(** Eve signs up on the sample store. *)
Definition eve_signup : result User.t * list SendEmail * Session :=
  signup Sample.auth hash gravatar user "http://host/" eve_body Sample.db.
Definition db_signed_up : Session := eve_signup.2.
Definition eve : User.t :=
  User.mk 3 "eve" "e@x.com" Sample.eve_hash false None user "https://gravatar/e@x.com".

Definition eve_email_token : token :=
  create_email_token Sample.tm (sub_claims "e@x.com") 1000.
Definition db_confirmed : Session :=
  (confirmed_email Sample.auth eve_email_token db_signed_up 2000).2.

(** A cache that answers and holds Alice under her key until time 2400. *)
Definition redis_alice : Redis :=
  mkRedis true {[ "user:a@x.com" := (Pickle Sample.alice, Some 2400) ]}.

Definition carol_fav : Contact.t := set_favorite Sample.carol true.

Definition db_contacts : Session :=
  mkSession [Sample.alice; Sample.bob]
    [Sample.frank; Sample.carol;
     Sample.contact_of 2 2 "dave" (Some (mkdate 1985 12 30));
     Sample.erin].

End Scenario.

(** * Properties *)

(** ** Purpose tags *)

Lemma jwt_decode_Some t key algs now payload :
  jwt_decode t key algs now = Some payload ->
  exists a, t = Jws key a payload /\ validate_exp payload now = true
            /\ validate_sub payload = true.
Proof.
  destruct t as [k a p | s]; simpl; [| discriminate].
  destruct (bool_decide (k = key)) eqn:Hk; simpl; [| discriminate].
  apply bool_decide_eq_true_1 in Hk. subst k.
  destruct (bool_decide (a ∈ algs)); simpl; [| discriminate].
  destruct (validate_claims p now) eqn:Hc; simpl; [| discriminate].
  intros [= <-]. exists a. split; [reflexivity |].
  unfold validate_claims in Hc. rewrite !andb_true_iff in Hc. tauto.
Qed.

Lemma scope_of_refresh_token issuer data ed t0 key algs now payload :
  jwt_decode (create_refresh_token issuer data ed t0) key algs now = Some payload ->
  payload !! "scope" = Some (CStr "refresh_token").
Proof.
  intros H. apply jwt_decode_Some in H as (a & Heq & _).
  unfold create_refresh_token, jwt_encode in Heq.
  injection Heq as _ _ <-. apply lookup_insert_eq.
Qed.

Lemma scope_of_access_token issuer data ed t0 key algs now payload :
  jwt_decode (create_access_token issuer data ed t0) key algs now = Some payload ->
  payload !! "scope" = Some (CStr "access_token").
Proof.
  intros H. apply jwt_decode_Some in H as (a & Heq & _).
  unfold create_access_token, jwt_encode in Heq.
  injection Heq as _ _ <-. apply lookup_insert_eq.
Qed.

(** C6: a token issued by [create_refresh_token] is rejected by
    [get_current_user] with 401 Unauthorized (the cache is not touched), and
    a token issued by [create_access_token] is rejected by
    [decode_refresh_token] with 401 Unauthorized, for every claim set,
    lifetime, issuing time and verification time. *)
Theorem refresh_and_access_tokens_not_interchangeable
    (self : TokenManager) (data : gmap string claim) (expires_delta : option Z)
    (issued_at now : Z) (db : Session) (r : Redis) :
  get_current_user self (create_refresh_token self data expires_delta issued_at) db r now
    = (RaiseHTTP credentials_exception, r)
  /\ is_unauthorized
       (get_current_user self
          (create_refresh_token self data expires_delta issued_at) db r now).1
  /\ is_unauthorized
       (decode_refresh_token self
          (create_access_token self data expires_delta issued_at) now).
Proof.
  assert (Hresolve :
    get_current_user self (create_refresh_token self data expires_delta issued_at) db r now
    = (RaiseHTTP credentials_exception, r)).
  { unfold get_current_user.
    destruct (jwt_decode _ _ _ _) as [payload |] eqn:Hd; [| reflexivity].
    rewrite (scope_of_refresh_token _ _ _ _ _ _ _ _ Hd).
    reflexivity. }
  split; [exact Hresolve |]. split; [rewrite Hresolve; reflexivity |].
  - unfold decode_refresh_token.
    destruct (jwt_decode _ _ _ _) as [payload |] eqn:Hd; [| reflexivity].
    unfold getitem. rewrite (scope_of_access_token _ _ _ _ _ _ _ _ Hd).
    reflexivity.
Qed.

(** On the sample session the tokens are unexpired at time 1500: each
    verifier accepts the token of its own purpose and rejects the other
    one for its scope. *)
Lemma purpose_tags_sample :
  decode_refresh_token Sample.tm Sample.alice_refresh 1500 = Return "a@x.com"
  /\ decode_refresh_token Sample.tm Sample.alice_access 1500
     = RaiseHTTP (mkHTTPException HTTP_401_UNAUTHORIZED "Invalid scope for token" [])
  /\ (get_current_user Sample.tm Sample.alice_access Sample.db Sample.redis_up 1500).1
     = Return Sample.alice
  /\ (get_current_user Sample.tm Sample.alice_refresh Sample.db Sample.redis_up 1500).1
     = RaiseHTTP credentials_exception.
Proof. repeat split; vm_compute; reflexivity. Qed.

(** ** Refresh-token rotation *)

Lemma find_email_update_token email (u : User.t) rt (rows : list User.t) :
  List.find (fun x => bool_decide (User.email x = email)) rows = Some u ->
  List.find (fun x => bool_decide (User.email x = email))
    (List.map (fun x => if bool_decide (User.id x = User.id u)
                        then User.set_refresh_token x rt else x) rows)
  = Some (User.set_refresh_token u rt).
Proof.
  induction rows as [| x rows IH]; simpl; [discriminate |].
  destruct (bool_decide (User.email x = email)) eqn:Hx.
  - intros [= ->]. rewrite (bool_decide_eq_true_2 (User.id u = User.id u) eq_refl).
    simpl. rewrite Hx. reflexivity.
  - intros Hfind.
    assert (Hkeep : bool_decide
              (User.email (if bool_decide (User.id x = User.id u)
                           then User.set_refresh_token x rt else x) = email) = false).
    { destruct (bool_decide (User.id x = User.id u)); simpl; exact Hx. }
    rewrite Hkeep. apply IH, Hfind.
Qed.

Lemma get_user_by_email_update_token email db u rt :
  get_user_by_email email db = Some u ->
  get_user_by_email email (update_token u rt db) = Some (User.set_refresh_token u rt).
Proof. unfold get_user_by_email, update_token. simpl. apply find_email_update_token. Qed.

Lemma decode_refresh_token_Return self tok now payload email :
  jwt_decode tok (SECRET_KEY self) [ALGORITHM self] now = Some payload ->
  payload !! "scope" = Some (CStr "refresh_token") ->
  payload !! "sub" = Some (CStr email) ->
  decode_refresh_token self tok now = Return email.
Proof.
  intros Hd Hscope Hsub. unfold decode_refresh_token, getitem.
  rewrite Hd, Hscope. simpl. rewrite Hsub. reflexivity.
Qed.

(** C4: a refresh request with a validly signed, unexpired,
    refresh-purpose token for the email of a stored user, whose value
    differs from the refresh token stored for that user, fails with 401
    "Invalid refresh token" and leaves the user's stored refresh token
    cleared (None). *)
Theorem refresh_mismatch_clears_stored_token
    (auth_service : AuthService) (tok : token) (db : Session) (now : Z)
    (payload : gmap string claim) (email : string) (u : User.t) :
  jwt_decode tok (SECRET_KEY (token_manager auth_service))
    [ALGORITHM (token_manager auth_service)] now = Some payload ->
  payload !! "scope" = Some (CStr "refresh_token") ->
  payload !! "sub" = Some (CStr email) ->
  get_user_by_email email db = Some u ->
  User.refresh_token u <> Some tok ->
  let (response, db') := refresh_token auth_service tok db now in
  response = RaiseHTTP (mkHTTPException HTTP_401_UNAUTHORIZED "Invalid refresh token" [])
  /\ is_unauthorized response
  /\ exists u', get_user_by_email email db' = Some u'
                /\ User.refresh_token u' = None.
Proof.
  intros Hd Hscope Hsub Hu Hne. unfold refresh_token.
  rewrite (decode_refresh_token_Return _ _ _ _ _ Hd Hscope Hsub), Hu.
  rewrite bool_decide_eq_true_2 by exact Hne.
  split; [reflexivity |]. split; [reflexivity |].
  exists (User.set_refresh_token u None). split; [| reflexivity].
  apply get_user_by_email_update_token, Hu.
Qed.

(** The stale token of the sample session: Alice logs in at time 1000 and
    again at time 2000; the refresh token of the first login then differs
    from the stored one. *)
Lemma refresh_mismatch_clears_stored_token_witness :
  let db2 := (login Sample.auth (mkForm "a@x.com" "pw123") Sample.db_logged_in 2000).2 in
  let (response, db') := refresh_token Sample.auth Sample.alice_refresh db2 3000 in
  response = RaiseHTTP (mkHTTPException HTTP_401_UNAUTHORIZED "Invalid refresh token" [])
  /\ is_unauthorized response
  /\ exists u', get_user_by_email "a@x.com" db' = Some u'
                /\ User.refresh_token u' = None.
Proof.
  set (db2 := (login Sample.auth (mkForm "a@x.com" "pw123") Sample.db_logged_in 2000).2).
  simpl.
  refine (refresh_mismatch_clears_stored_token Sample.auth Sample.alice_refresh db2 3000
           (<["scope" := CStr "refresh_token"]>
              (<["exp" := CNum (1000 + 7 * 86400)]>
                 (<["iat" := CNum 1000]> (sub_claims "a@x.com"))))
           "a@x.com"
           (User.set_refresh_token Sample.alice
              (Some (create_refresh_token Sample.tm (sub_claims "a@x.com") None 2000)))
           _ _ _ _ _).
  - vm_compute. reflexivity.
  - vm_compute. reflexivity.
  - vm_compute. reflexivity.
  - vm_compute. reflexivity.
  - vm_compute. intros [= H].
Defined.


(** C2: for a user whose stored refresh token is the presented one, the
    refresh handler reaches the call decode_refresh_token(data=...), which
    raises TypeError: the first call returns no token pair and stores
    nothing, and a second call with the same token ends the same way, not
    with 401. *)
Theorem refresh_with_current_token_raises_TypeError
    (auth_service : AuthService) (tok : token) (db : Session) (now later : Z)
    (email : string) (u : User.t) :
  decode_refresh_token (token_manager auth_service) tok now = Return email ->
  decode_refresh_token (token_manager auth_service) tok later = Return email ->
  get_user_by_email email db = Some u ->
  User.refresh_token u = Some tok ->
  refresh_token auth_service tok db now = (Raise TypeError, db)
  /\ refresh_token auth_service tok (refresh_token auth_service tok db now).2 later
     = (Raise TypeError, db).
Proof.
  intros Hnow Hlater Hu Hstored.
  assert (Hcall : forall t, decode_refresh_token (token_manager auth_service) tok t
                            = Return email ->
                            refresh_token auth_service tok db t = (Raise TypeError, db)).
  { intros t Ht. unfold refresh_token. rewrite Ht, Hu, Hstored.
    rewrite bool_decide_eq_false_2 by (intros Hne; apply Hne; reflexivity).
    reflexivity. }
  split; [apply Hcall, Hnow |].
  rewrite (Hcall now Hnow). simpl. apply Hcall, Hlater.
Qed.

(** The sample session: Alice logs in at time 1000 and presents the refresh
    token of that login at times 1500 and 1600. *)
Lemma refresh_with_current_token_raises_TypeError_witness :
  Sample.alice_login.1
    = Return (mkTokenModel Sample.alice_access Sample.alice_refresh "bearer")
  /\ refresh_token Sample.auth Sample.alice_refresh Sample.db_logged_in 1500
     = (Raise TypeError, Sample.db_logged_in)
  /\ refresh_token Sample.auth Sample.alice_refresh
       (refresh_token Sample.auth Sample.alice_refresh Sample.db_logged_in 1500).2 1600
     = (Raise TypeError, Sample.db_logged_in).
Proof.
  split; [vm_compute; reflexivity |].
  apply (refresh_with_current_token_raises_TypeError Sample.auth Sample.alice_refresh
           Sample.db_logged_in 1500 1600 "a@x.com"
           (User.set_refresh_token Sample.alice (Some Sample.alice_refresh))).
  - vm_compute. reflexivity.
  - vm_compute. reflexivity.
  - vm_compute. reflexivity.
  - vm_compute. reflexivity.
Defined.

(** C3: a refresh request whose token is validly signed, unexpired and
    refresh-purpose, but whose subject has no row in the store, ends with
    an AttributeError escaping the handler (user.refresh_token on None),
    not with 401 Unauthorized; the store is unchanged. *)
Theorem refresh_for_unknown_subject_raises_AttributeError
    (auth_service : AuthService) (tok : token) (db : Session) (now : Z)
    (email : string) :
  decode_refresh_token (token_manager auth_service) tok now = Return email ->
  get_user_by_email email db = None ->
  refresh_token auth_service tok db now = (Raise AttributeError, db)
  /\ crashed (refresh_token auth_service tok db now).1
  /\ ~ is_unauthorized (refresh_token auth_service tok db now).1.
Proof.
  intros Hd Hu.
  assert (H : refresh_token auth_service tok db now = (Raise AttributeError, db)).
  { unfold refresh_token. rewrite Hd, Hu. reflexivity. }
  rewrite H. simpl. auto.
Qed.

Lemma refresh_for_unknown_subject_raises_AttributeError_witness :
  refresh_token Sample.auth Sample.ghost_refresh Sample.db 1500
    = (Raise AttributeError, Sample.db)
  /\ crashed (refresh_token Sample.auth Sample.ghost_refresh Sample.db 1500).1
  /\ ~ is_unauthorized (refresh_token Sample.auth Sample.ghost_refresh Sample.db 1500).1.
Proof.
  apply (refresh_for_unknown_subject_raises_AttributeError Sample.auth
           Sample.ghost_refresh Sample.db 1500 "ghost@x.com").
  - vm_compute. reflexivity.
  - vm_compute. reflexivity.
Defined.

(** ** Session resolver and cache *)

Lemma get_current_user_reaches_cache self t db r now payload sub :
  jwt_decode t (SECRET_KEY self) [ALGORITHM self] now = Some payload ->
  payload !! "scope" = Some (CStr "access_token") ->
  payload !! "sub" = Some sub ->
  get_current_user self t db r now =
    match redis_get r ("user:" +:+ claim_str sub) now with
    | Return None =>
        match get_user_by_email (claim_str sub) db with
        | None => (RaiseHTTP credentials_exception, r)
        | Some u =>
            match redis_set r ("user:" +:+ claim_str sub) (pickle_dumps u) with
            | Return r1 =>
                match redis_expire r1 ("user:" +:+ claim_str sub) 900 now with
                | Return r2 => (Return u, r2)
                | RaiseHTTP e => (RaiseHTTP e, r1)
                | Raise e => (Raise e, r1)
                end
            | RaiseHTTP e => (RaiseHTTP e, r)
            | Raise e => (Raise e, r)
            end
        end
    | Return (Some bytes) =>
        match pickle_loads bytes with
        | Return u => (Return u, r)
        | RaiseHTTP e => (RaiseHTTP e, r)
        | Raise e => (Raise e, r)
        end
    | RaiseHTTP e => (RaiseHTTP e, r)
    | Raise e => (Raise e, r)
    end.
Proof.
  intros Hd Hscope Hsub. unfold get_current_user.
  rewrite Hd, Hscope, Hsub.
  rewrite bool_decide_eq_true_2 by reflexivity. reflexivity.
Qed.

(** C1: with a valid access token for a stored user and a Redis server
    that does not answer, [get_current_user] does not return the user: the
    ConnectionError of the first cache read escapes the resolver.  (The
    repository's own cached read, [get_cache_user_by_email], answers None
    on the same cache.) *)
Theorem get_current_user_fails_when_cache_unreachable
    (self : TokenManager) (t : token) (db : Session) (r : Redis) (now : Z)
    (payload : gmap string claim) (email : string) (u : User.t) :
  jwt_decode t (SECRET_KEY self) [ALGORITHM self] now = Some payload ->
  payload !! "scope" = Some (CStr "access_token") ->
  payload !! "sub" = Some (CStr email) ->
  get_user_by_email email db = Some u ->
  reachable r = false ->
  get_current_user self t db r now = (Raise ConnectionError, r)
  /\ get_cache_user_by_email email (Some r) now = None.
Proof.
  intros Hd Hscope Hsub Hu Hr. split.
  - rewrite (get_current_user_reaches_cache _ _ _ _ _ _ _ Hd Hscope Hsub).
    unfold redis_get. rewrite Hr. reflexivity.
  - unfold get_cache_user_by_email, redis_get. rewrite Hr.
    destruct (bool_decide (email = "")); reflexivity.
Qed.

Lemma get_current_user_fails_when_cache_unreachable_witness :
  get_current_user Sample.tm Sample.alice_access Sample.db Sample.redis_down 1500
    = (Raise ConnectionError, Sample.redis_down)
  /\ get_cache_user_by_email "a@x.com" (Some Sample.redis_down) 1500 = None.
Proof.
  apply (get_current_user_fails_when_cache_unreachable Sample.tm Sample.alice_access
           Sample.db Sample.redis_down 1500
           (<["scope" := CStr "access_token"]>
              (<["exp" := CNum (1000 + 15 * 60)]>
                 (<["iat" := CNum 1000]> (sub_claims "a@x.com"))))
           "a@x.com" Sample.alice).
  - vm_compute. reflexivity.
  - vm_compute. reflexivity.
  - vm_compute. reflexivity.
  - vm_compute. reflexivity.
  - reflexivity.
Defined.

(** With a Redis server that answers and holds no entry, the same request
    returns the stored user and fills the cache for 900 seconds. *)
Lemma get_current_user_cache_miss_sample :
  get_current_user Sample.tm Sample.alice_access Sample.db Sample.redis_up 1500
    = (Return Sample.alice,
       mkRedis true {[ "user:a@x.com" := (Pickle Sample.alice, Some 2400) ]}).
Proof. vm_compute. reflexivity. Qed.

(** ** Email-confirmation tokens *)

(** C5: for a validly signed, unexpired token whose scope is not
    "email_token" (an access or a refresh token, say),
    [get_email_from_token] raises nothing: it returns None. *)
Theorem get_email_from_token_returns_None_on_other_scope
    (self : TokenManager) (t : token) (now : Z)
    (payload : gmap string claim) (scope : claim) :
  jwt_decode t (SECRET_KEY self) [ALGORITHM self] now = Some payload ->
  payload !! "scope" = Some scope ->
  scope <> CStr "email_token" ->
  get_email_from_token self t now = Return None.
Proof.
  intros Hd Hscope Hne. unfold get_email_from_token, getitem.
  rewrite Hd, Hscope. simpl.
  rewrite bool_decide_eq_false_2 by exact Hne. reflexivity.
Qed.

Lemma get_email_from_token_returns_None_on_other_scope_witness :
  get_email_from_token Sample.tm Sample.alice_access 1500 = Return None.
Proof.
  apply (get_email_from_token_returns_None_on_other_scope Sample.tm
           Sample.alice_access 1500
           (<["scope" := CStr "access_token"]>
              (<["exp" := CNum (1000 + 15 * 60)]>
                 (<["iat" := CNum 1000]> (sub_claims "a@x.com"))))
           (CStr "access_token")).
  - vm_compute. reflexivity.
  - vm_compute. reflexivity.
  - intros [= H].
Defined.

(** A token issued for email confirmation gives its subject back. *)
Lemma get_email_from_token_sample :
  get_email_from_token Sample.tm
    (create_email_token Sample.tm (sub_claims "a@x.com") 1000) 1500
  = Return (Some "a@x.com").
Proof. vm_compute. reflexivity. Qed.

(** ** Credential hasher *)

(** C7, as stated, fails: neither "not-a-hash" nor "$2b$pw123" is a
    well-formed hash, and verifying a password against them does not return
    False: the first raises UnknownHashError, the second, which carries the
    identifier of bcrypt, ValueError. *)
Lemma verify_password_malformed_counterexample :
  well_formed_hash (pwd_context (mkPasswordManager Sample.ctx)) "not-a-hash" = false
  /\ verify_password (mkPasswordManager Sample.ctx) "pw123" "not-a-hash"
     = Raise UnknownHashError
  /\ verify_password (mkPasswordManager Sample.ctx) "pw123" "not-a-hash"
     <> Return false
  /\ well_formed_hash (pwd_context (mkPasswordManager Sample.ctx)) "$2b$pw123" = false
  /\ verify_password (mkPasswordManager Sample.ctx) "pw123" "$2b$pw123"
     = Raise ValueError
  /\ verify_password (mkPasswordManager Sample.ctx) "pw123" "$2b$pw123"
     <> Return false.
Proof. repeat split; try (vm_compute; reflexivity); vm_compute; intros [= H]. Qed.

(** C7, amended: for every plaintext password and every malformed stored
    hash (a string that is not a well-formed output of the hashing
    algorithm), [verify_password] does not return False: the error of the
    hashing context escapes it, UnknownHashError when no configured scheme
    identifies the string and ValueError when the string carries a scheme's
    identifier but cannot be read. *)
Theorem verify_password_propagates_context_error
    (self : PasswordManager) (plain hashed : string) :
  well_formed_hash (pwd_context self) hashed = false ->
  verify_password self plain hashed
    = Raise (if identify (pwd_context self) hashed then ValueError
             else UnknownHashError)
  /\ verify_password self plain hashed <> Return false.
Proof.
  intros Hmal.
  assert (H : verify_password self plain hashed
              = Raise (if identify (pwd_context self) hashed then ValueError
                       else UnknownHashError)).
  { unfold verify_password, CryptContext_verify.
    unfold well_formed_hash in Hmal.
    destruct (identify (pwd_context self) hashed); [| reflexivity].
    simpl in Hmal. rewrite Hmal. reflexivity. }
  split; [exact H |]. rewrite H. discriminate.
Qed.

Lemma verify_password_propagates_context_error_witness :
  (verify_password (mkPasswordManager Sample.ctx) "pw123" "not-a-hash"
     = Raise UnknownHashError
   /\ verify_password (mkPasswordManager Sample.ctx) "pw123" "not-a-hash"
      <> Return false)
  /\ (verify_password (mkPasswordManager Sample.ctx) "pw123" "$2b$pw123"
        = Raise ValueError
      /\ verify_password (mkPasswordManager Sample.ctx) "pw123" "$2b$pw123"
         <> Return false).
Proof.
  split.
  - apply (verify_password_propagates_context_error
             (mkPasswordManager Sample.ctx) "pw123" "not-a-hash").
    vm_compute. reflexivity.
  - apply (verify_password_propagates_context_error
             (mkPasswordManager Sample.ctx) "pw123" "$2b$pw123").
    vm_compute. reflexivity.
Defined.

(** A well-formed hash is verified to a boolean: Alice's password against
    her stored hash, and a wrong one. *)
Lemma verify_password_well_formed_sample :
  well_formed_hash Sample.ctx Sample.alice_hash = true
  /\ verify_password (mkPasswordManager Sample.ctx) "pw123" Sample.alice_hash
     = Return true
  /\ verify_password (mkPasswordManager Sample.ctx) "wrong" Sample.alice_hash
     = Return false.
Proof. repeat split; vm_compute; reflexivity. Qed.

(** ** Login failures *)

(** C8, as stated, fails: on the sample store, a login with an unknown
    email and a login with Alice's email and a wrong password get
    different responses. *)
Lemma login_failures_differ_counterexample :
  get_user_by_email "nobody@x.com" Sample.db = None
  /\ get_user_by_email "a@x.com" Sample.db = Some Sample.alice
  /\ verify_password (password_manager Sample.auth) "wrong" (User.password Sample.alice)
     = Return false
  /\ (login Sample.auth (mkForm "nobody@x.com" "wrong") Sample.db 1000).1
     = RaiseHTTP (mkHTTPException 401 "Invalid email" [])
  /\ (login Sample.auth (mkForm "a@x.com" "wrong") Sample.db 1000).1
     = RaiseHTTP (mkHTTPException 401 "Invalid password" [])
  /\ (login Sample.auth (mkForm "nobody@x.com" "wrong") Sample.db 1000).1
     <> (login Sample.auth (mkForm "a@x.com" "wrong") Sample.db 1000).1.
Proof.
  repeat split; try (vm_compute; reflexivity).
  vm_compute. intros [= H].
Qed.

(** C8, amended: a login with an unrecognized email and a login with a
    recognized email and a wrong password both fail with status 401 and
    leave the store unchanged, but the detail tells them apart: "Invalid
    email" for the first, and for the second "Invalid password" when the
    user is confirmed and "Email not confirmed" otherwise. *)
Theorem login_failures_unauthorized_with_distinct_detail
    (auth_service : AuthService) (db : Session) (now : Z)
    (unknown known pw1 pw2 : string) (u : User.t) :
  get_user_by_email unknown db = None ->
  get_user_by_email known db = Some u ->
  verify_password (password_manager auth_service) pw2 (User.password u) = Return false ->
  let r1 := login auth_service (mkForm unknown pw1) db now in
  let r2 := login auth_service (mkForm known pw2) db now in
  is_unauthorized r1.1 /\ is_unauthorized r2.1
  /\ r1.2 = db /\ r2.2 = db
  /\ r1.1 = RaiseHTTP (mkHTTPException HTTP_401_UNAUTHORIZED "Invalid email" [])
  /\ r2.1 = RaiseHTTP (mkHTTPException HTTP_401_UNAUTHORIZED
                         (if User.confirmed u then "Invalid password"
                          else "Email not confirmed") [])
  /\ r1.1 <> r2.1.
Proof.
  intros Hnone Hsome Hpw. unfold login. simpl.
  rewrite Hnone, Hsome, Hpw.
  destruct (User.confirmed u); simpl; repeat split; intros [= H].
Qed.

Lemma login_failures_unauthorized_with_distinct_detail_witness :
  let r1 := login Sample.auth (mkForm "nobody@x.com" "wrong") Sample.db 1000 in
  let r2 := login Sample.auth (mkForm "a@x.com" "wrong") Sample.db 1000 in
  is_unauthorized r1.1 /\ is_unauthorized r2.1
  /\ r1.2 = Sample.db /\ r2.2 = Sample.db
  /\ r1.1 = RaiseHTTP (mkHTTPException HTTP_401_UNAUTHORIZED "Invalid email" [])
  /\ r2.1 = RaiseHTTP (mkHTTPException HTTP_401_UNAUTHORIZED
                         (if User.confirmed Sample.alice then "Invalid password"
                          else "Email not confirmed") [])
  /\ r1.1 <> r2.1.
Proof.
  apply (login_failures_unauthorized_with_distinct_detail Sample.auth Sample.db 1000
           "nobody@x.com" "a@x.com" "wrong" "wrong" Sample.alice).
  - vm_compute. reflexivity.
  - vm_compute. reflexivity.
  - vm_compute. reflexivity.
Defined.

(** ** Contacts by id *)

Lemma get_contact_by_id_None contact_id db (u : User.t) :
  (forall c, In c (contacts db) ->
             Contact.id c = contact_id -> Contact.user_id c <> User.id u) ->
  get_contact_by_id contact_id db u = None.
Proof.
  intros H. unfold get_contact_by_id.
  induction (contacts db) as [| c rows IH]; simpl; [reflexivity |].
  destruct (bool_decide (Contact.id c = contact_id)) eqn:Hid; simpl.
  - apply bool_decide_eq_true_1 in Hid.
    rewrite bool_decide_eq_false_2 by (apply (H c); [left; reflexivity | exact Hid]).
    apply IH. intros c' Hin. apply H. right. exact Hin.
  - apply IH. intros c' Hin. apply H. right. exact Hin.
Qed.

(** C9: for every user and contact id, fetching the contact by id gives
    the same response, 404 "Not found", on a store that has no contact of
    that id and on a store where the contacts of that id belong to other
    users. *)
Theorem get_contact_absent_and_foreign_indistinguishable
    (contact_id : Z) (db_absent db_foreign : Session) (current_user : User.t) :
  (forall c, In c (contacts db_absent) -> Contact.id c <> contact_id) ->
  (forall c, In c (contacts db_foreign) ->
             Contact.id c = contact_id -> Contact.user_id c <> User.id current_user) ->
  get_contact contact_id db_absent current_user
    = get_contact contact_id db_foreign current_user
  /\ get_contact contact_id db_foreign current_user
     = RaiseHTTP (mkHTTPException HTTP_404_NOT_FOUND "Not found" []).
Proof.
  intros Habsent Hforeign. unfold get_contact.
  rewrite (get_contact_by_id_None contact_id db_absent current_user).
  - rewrite (get_contact_by_id_None contact_id db_foreign current_user Hforeign).
    split; reflexivity.
  - intros c Hin Hid. destruct (Habsent c Hin Hid).
Qed.

(** Alice asks for contact 2, which is Dave's contact of Bob, and for
    contact 2 on a store without contacts. *)
Lemma get_contact_absent_and_foreign_indistinguishable_witness :
  (exists c, In c (contacts Sample.db) /\ Contact.id c = 2)
  /\ get_contact 2 (mkSession (users Sample.db) []) Sample.alice
     = get_contact 2 Sample.db Sample.alice
  /\ get_contact 2 Sample.db Sample.alice
     = RaiseHTTP (mkHTTPException HTTP_404_NOT_FOUND "Not found" []).
Proof.
  split.
  - exists (Sample.contact_of 2 2 "dave" (Some (mkdate 1985 12 30))).
    split; [right; left; reflexivity | reflexivity].
  - apply (get_contact_absent_and_foreign_indistinguishable 2
             (mkSession (users Sample.db) []) Sample.db Sample.alice).
    + simpl. intros c [].
    + simpl. intros c [<- | [<- | []]]; simpl; lia.
Defined.

(** The owner gets the contact. *)
Lemma get_contact_owner_sample :
  get_contact 1 Sample.db Sample.alice
  = Return (Sample.contact_of 1 1 "carol" (Some (mkdate 1990 3 8))).
Proof. reflexivity. Qed.

(** ** Birthday search *)

(** *** The order of dates within one year *)

Ltac month_cases m :=
  let H := fresh "Hm" in
  assert (H : m = 1 \/ m = 2 \/ m = 3 \/ m = 4 \/ m = 5 \/ m = 6 \/ m = 7
              \/ m = 8 \/ m = 9 \/ m = 10 \/ m = 11 \/ m = 12) by lia;
  repeat (destruct H as [-> | H]); [.. | subst m].

Lemma days_before_next_month y m1 m2 :
  1 <= m1 -> m1 < m2 -> m2 <= 12 ->
  days_before_month y m1 + days_in_month y m1 <= days_before_month y m2.
Proof.
  intros H1 H12 H2. unfold days_before_month, days_in_month.
  destruct (is_leap y); month_cases m1; try lia; month_cases m2; try lia;
    apply Z.leb_le; vm_compute; reflexivity.
Qed.

Lemma valid_date_bounds d :
  valid_date d = true ->
  1 <= month d <= 12 /\ 1 <= day d <= days_in_month (year d) (month d).
Proof.
  unfold valid_date. rewrite !andb_true_iff, !Z.leb_le. lia.
Qed.

Lemma toordinal_lt_same_year d n :
  valid_date d = true -> valid_date n = true -> year d = year n ->
  date_ltb d n = true <-> toordinal d < toordinal n.
Proof.
  intros Hd Hn Hy.
  apply valid_date_bounds in Hd as [Hmd Hdd].
  apply valid_date_bounds in Hn as [Hmn Hdn].
  unfold date_ltb, toordinal. rewrite Hy in *.
  rewrite Z.ltb_irrefl, Z.eqb_refl. simpl.
  destruct (Z.lt_trichotomy (month d) (month n)) as [Hlt | [Heq | Hgt]].
  - pose proof (days_before_next_month (year n) (month d) (month n)).
    rewrite (proj2 (Z.ltb_lt _ _) Hlt). simpl. split; [intros _; lia | reflexivity].
  - rewrite Heq in *. rewrite Z.ltb_irrefl, Z.eqb_refl. simpl.
    rewrite Z.ltb_lt. lia.
  - pose proof (days_before_next_month (year n) (month n) (month d)).
    rewrite (proj2 (Z.ltb_ge _ _)) by lia.
    rewrite (proj2 (Z.eqb_neq _ _)) by lia. simpl.
    split; [discriminate | lia].
Qed.

Lemma replace_year_Return b y d :
  replace_year b y = Return d ->
  d = mkdate y (month b) (day b) /\ valid_date d = true.
Proof.
  unfold replace_year.
  destruct (valid_date (mkdate y (month b) (day b))) eqn:Hv; [| discriminate].
  intros [= <-]. split; [reflexivity | exact Hv].
Qed.

(** *** The loop *)

Lemma scan_birthdays_Return rows now days :
  forall acc l,
    scan_birthdays rows now days acc = Return l ->
    forall c, In c l <-> In c acc \/ (In c rows /\ kept now days c).
Proof.
  induction rows as [| r rows IH]; intros acc l; simpl.
  - intros [= <-] c. split; [auto | intros [H | [[] _]]; exact H].
  - destruct (Contact.birthday r) as [b |] eqn:Hb.
    + destruct (replace_year b (year now)) as [d | e | e] eqn:Hr; simpl;
        try discriminate.
      destruct (in_range (toordinal d - toordinal now) days) eqn:Hin.
      * intros Hscan c. rewrite (IH _ _ Hscan c), in_app_iff. simpl.
        split.
        -- intros [[H | [<- | []]] | [H1 H2]]; auto.
           right. split; [left; reflexivity |]. exists b, d. auto.
        -- intros [H | [[<- | H1] H2]]; auto.
      * intros Hscan c. rewrite (IH _ _ Hscan c).
        split.
        -- intros [H | [H1 H2]]; auto.
        -- intros [H | [[<- | H1] H2]]; auto.
           destruct H2 as (b' & d' & Hb' & Hr' & Hin').
           rewrite Hb in Hb'. injection Hb' as <-.
           rewrite Hr in Hr'. injection Hr' as <-.
           rewrite Hin in Hin'. discriminate.
    + intros Hscan c. rewrite (IH _ _ Hscan c).
      split.
      * intros [H | [H1 H2]]; auto.
      * intros [H | [[<- | H1] H2]]; auto.
        destruct H2 as (b' & d' & Hb' & _). rewrite Hb in Hb'. discriminate.
Qed.

Lemma scan_birthdays_total rows now days :
  birthdays_exist_in_year now rows ->
  forall acc, exists l, scan_birthdays rows now days acc = Return l.
Proof.
  induction rows as [| r rows IH]; intros Hrows acc; simpl.
  - eauto.
  - assert (Hrest : birthdays_exist_in_year now rows).
    { intros c b Hin. apply Hrows. right. exact Hin. }
    destruct (Contact.birthday r) as [b |] eqn:Hb; [| apply IH, Hrest].
    unfold replace_year. rewrite (Hrows r b (or_introl eq_refl) Hb). simpl.
    destruct (in_range _ _); apply IH, Hrest.
Qed.

(** *** Sample searches *)

(** On 30 December 2023, Frank's birthday of 2 January is three days
    ahead, in 2024; moved to 2023 it lies before today, and the search over
    7 days does not return him. *)
Lemma search_birthday_year_end_sample :
  toordinal (mkdate 2024 1 2) - toordinal (mkdate 2023 12 30) = 3
  /\ search_birthday Sample.week Sample.db_frank_carol Sample.alice (mkdate 2023 12 30)
     = Return [].
Proof. split; vm_compute; reflexivity. Qed.

(** On 1 March 2023, Carol's birthday of 8 March is exactly 7 days ahead
    and the search over 7 days returns her; over 6 days it does not. *)
Lemma search_birthday_inclusive_bound_sample :
  search_birthday Sample.week Sample.db_frank_carol Sample.alice (mkdate 2023 3 1)
    = Return [Sample.carol]
  /\ search_birthday (mkPar (Some 6) (Some 0%nat) (Some 10%nat))
       Sample.db_frank_carol Sample.alice (mkdate 2023 3 1)
     = Return [].
Proof. split; vm_compute; reflexivity. Qed.

(** C10, as stated, fails in its inclusion half: on 1 March 2023 Carol's
    birthday is exactly 7 days ahead, yet a search over 7 days limited to
    the first row returns nothing, and a search whose page also holds a
    birthday of 29 February raises ValueError and returns no list. *)
Lemma search_birthday_inclusion_counterexample :
  Contact.birthday Sample.carol = Some (mkdate 1990 3 8)
  /\ replace_year (mkdate 1990 3 8) 2023 = Return (mkdate 2023 3 8)
  /\ toordinal (mkdate 2023 3 8) - toordinal (mkdate 2023 3 1) = 7
  /\ In Sample.carol (contacts Sample.db_frank_carol)
  /\ search_birthday Sample.week_first_row Sample.db_frank_carol Sample.alice
       (mkdate 2023 3 1) = Return []
  /\ In Sample.carol (birthday_page Sample.week Sample.db_erin_carol Sample.alice)
  /\ search_birthday Sample.week Sample.db_erin_carol Sample.alice
       (mkdate 2023 3 1) = Raise ValueError.
Proof.
  repeat split; try (vm_compute; reflexivity).
  - right. left. reflexivity.
  - right. left. reflexivity.
Qed.

(** C10, amended: [search_birthday] never returns a contact whose
    birthday, moved to the current year, falls before today, whatever the
    days parameter: there is no wrap-around into the following year.  A
    contact on the page the search visits (the caller's contacts after skip,
    within limit) whose birthday, moved to the current year, is exactly
    [days] days ahead is returned, provided every birthday on that page
    exists in the current year. *)
Theorem search_birthday_no_wraparound_inclusive_bound
    (par : BirthdayParams) (db : Session) (u : User.t) (today : date) :
  valid_date today = true ->
  (forall l c b d,
      search_birthday par db u today = Return l ->
      Contact.birthday c = Some b ->
      replace_year b (year today) = Return d ->
      date_ltb d today = true ->
      ~ In c l)
  /\ (forall c b d,
      In c (birthday_page par db u) ->
      birthdays_exist_in_year today (birthday_page par db u) ->
      Contact.birthday c = Some b ->
      replace_year b (year today) = Return d ->
      0 <= default 7 (par_days par) ->
      toordinal d - toordinal today = default 7 (par_days par) ->
      exists l, search_birthday par db u today = Return l /\ In c l).
Proof.
  intros Htoday. unfold search_birthday. split.
  - intros l c b d Hscan Hb Hr Hlt Hin.
    apply (scan_birthdays_Return _ _ _ _ _ Hscan c) in Hin as [[] | [_ Hkept]].
    destruct Hkept as (b' & d' & Hb' & Hr' & Hrange).
    rewrite Hb in Hb'. injection Hb' as <-.
    rewrite Hr in Hr'. injection Hr' as <-.
    apply replace_year_Return in Hr as [-> Hvalid].
    apply (toordinal_lt_same_year _ _ Hvalid Htoday eq_refl) in Hlt.
    unfold in_range in Hrange. apply andb_true_iff in Hrange as [Hge _].
    apply Z.leb_le in Hge. lia.
  - intros c b d Hpage Hexist Hb Hr Hdays Hahead.
    destruct (scan_birthdays_total _ today (default 7 (par_days par) + 1) Hexist [])
      as [l Hscan].
    exists l. split; [exact Hscan |].
    apply (scan_birthdays_Return _ _ _ _ _ Hscan c). right.
    split; [exact Hpage |]. exists b, d.
    split; [exact Hb |]. split; [exact Hr |].
    unfold in_range. rewrite Hahead.
    apply andb_true_iff. split; [apply Z.leb_le | apply Z.ltb_lt]; lia.
Qed.

(** The sample page on 1 March 2023: Frank (2 January) is not returned,
    Carol (8 March, 7 days ahead) is. *)
Lemma search_birthday_no_wraparound_inclusive_bound_witness :
  (forall l,
      search_birthday Sample.week Sample.db_frank_carol Sample.alice (mkdate 2023 3 1)
        = Return l ->
      ~ In Sample.frank l)
  /\ exists l,
      search_birthday Sample.week Sample.db_frank_carol Sample.alice (mkdate 2023 3 1)
        = Return l
      /\ In Sample.carol l.
Proof.
  destruct (search_birthday_no_wraparound_inclusive_bound Sample.week
              Sample.db_frank_carol Sample.alice (mkdate 2023 3 1) eq_refl)
    as [Hexcl Hincl].
  split.
  - intros l Hl.
    apply (Hexcl l Sample.frank (mkdate 1970 1 2) (mkdate 2023 1 2) Hl);
      vm_compute; reflexivity.
  - apply (Hincl Sample.carol (mkdate 1990 3 8) (mkdate 2023 3 8)).
    + right. left. reflexivity.
    + intros c b [<- | [<- | []]] [= <-]; vm_compute; reflexivity.
    + reflexivity.
    + vm_compute. reflexivity.
    + simpl. lia.
    + vm_compute. reflexivity.
Defined.

(** * Further properties *)

(** ** Issued tokens and their lifetime *)

Lemma issued_lookup_scope (data : gmap string claim) s e i :
  (<["scope" := s]> (<["exp" := e]> (<["iat" := i]> data))) !! "scope" = Some s.
Proof. apply lookup_insert_eq. Qed.

Lemma issued_lookup_exp (data : gmap string claim) s e i :
  (<["scope" := s]> (<["exp" := e]> (<["iat" := i]> data))) !! "exp" = Some e.
Proof. rewrite lookup_insert_ne by discriminate. apply lookup_insert_eq. Qed.

Lemma issued_lookup_sub (data : gmap string claim) s e i :
  (<["scope" := s]> (<["exp" := e]> (<["iat" := i]> data))) !! "sub" = data !! "sub".
Proof. rewrite !lookup_insert_ne by discriminate. reflexivity. Qed.

Lemma issued_lookup_other (data : gmap string claim) s e i k :
  k <> "scope" -> k <> "exp" -> k <> "iat" ->
  (<["scope" := s]> (<["exp" := e]> (<["iat" := i]> data))) !! k = data !! k.
Proof. intros H1 H2 H3. rewrite !lookup_insert_ne by congruence. reflexivity. Qed.

(** The checks of jwt.decode that the claims given to an issuer decide:
    the issuer itself writes [iat], [exp] and [scope]. *)
Definition data_passes (data : gmap string claim) (now : Z) : bool :=
  validate_nbf data now && validate_aud data && validate_sub data
  && validate_jti data && validate_at_hash data.

(** Decoding, with the issuing key, claims stamped by one of the three
    issuers: the claims come back until the expiry time, included. *)
Lemma jwt_decode_issued key alg (data : gmap string claim) s e i now :
  jwt_decode
    (jwt_encode (<["scope" := s]> (<["exp" := CNum e]> (<["iat" := CNum i]> data)))
       key alg)
    key [alg] now
  = if (now <=? e) && data_passes data now
    then Some (<["scope" := s]> (<["exp" := CNum e]> (<["iat" := CNum i]> data)))
    else None.
Proof.
  unfold jwt_encode, jwt_decode.
  rewrite (bool_decide_eq_true_2 (key = key) eq_refl).
  rewrite (bool_decide_eq_true_2 (alg ∈ [alg])) by constructor.
  unfold validate_claims, data_passes, validate_iat, validate_nbf, validate_exp,
    validate_aud, validate_sub, validate_jti, validate_at_hash.
  rewrite issued_lookup_exp.
  rewrite (issued_lookup_other _ _ _ _ "nbf") by discriminate.
  rewrite (issued_lookup_other _ _ _ _ "aud") by discriminate.
  rewrite (issued_lookup_other _ _ _ _ "sub") by discriminate.
  rewrite (issued_lookup_other _ _ _ _ "jti") by discriminate.
  rewrite (issued_lookup_other _ _ _ _ "at_hash") by discriminate.
  rewrite (lookup_insert_ne _ "scope" "iat") by discriminate.
  rewrite (lookup_insert_ne _ "exp" "iat") by discriminate.
  rewrite lookup_insert_eq. simpl.
  destruct (now <=? e); simpl; [| destruct (match data !! "nbf" with
                                             | Some c => _ | None => true end);
                                   reflexivity].
  destruct (match data !! "nbf" with Some c => _ | None => true end); reflexivity.
Qed.

(** Claims that carry a string subject and none of [aud], [nbf], [jti]
    and [at_hash] pass the checks they decide. *)
Lemma data_passes_subject (data : gmap string claim) (sub : option string) now :
  data !! "sub" = CStr <$> sub ->
  data !! "aud" = None -> data !! "nbf" = None ->
  data !! "jti" = None -> data !! "at_hash" = None ->
  data_passes data now = true.
Proof.
  intros Hsub Haud Hnbf Hjti Hat.
  unfold data_passes, validate_nbf, validate_aud, validate_sub, validate_jti,
    validate_at_hash.
  rewrite Hsub, Haud, Hnbf, Hjti, Hat. destruct sub; reflexivity.
Qed.

Lemma data_passes_sub_claims email now : data_passes (sub_claims email) now = true.
Proof.
  apply (data_passes_subject _ (Some email)); unfold sub_claims;
    [apply lookup_singleton_eq | | | |]; apply lookup_singleton_ne; discriminate.
Qed.

(** X1: a refresh token issued, within the range of datetime, for claims
    that carry the subject [email] and none of the registered claims [aud],
    [nbf], [jti] and [at_hash] decodes to [email] at every time up to its
    expiry, included (issuing time plus the given non-zero lifetime, or
    plus 7 days), and is rejected with 401 after it. *)
Theorem refresh_token_round_trip
    (self : TokenManager) (data : gmap string claim) (expires_delta : option Z)
    (issued_at now : Z) (email : string) :
  data !! "sub" = Some (CStr email) ->
  data !! "aud" = None -> data !! "nbf" = None ->
  data !! "jti" = None -> data !! "at_hash" = None ->
  in_datetime_range issued_at = true ->
  in_datetime_range (issued_at + default (7 * 86400) (truthy_delta expires_delta)) = true ->
  decode_refresh_token self (create_refresh_token self data expires_delta issued_at) now
  = if now <=? issued_at + default (7 * 86400) (truthy_delta expires_delta)
    then Return email
    else RaiseHTTP (mkHTTPException HTTP_401_UNAUTHORIZED
                      "Could not validate credentials" []).
Proof.
  intros Hsub Haud Hnbf Hjti Hat _ _. unfold decode_refresh_token, create_refresh_token.
  rewrite jwt_decode_issued.
  rewrite (data_passes_subject data (Some email) now Hsub Haud Hnbf Hjti Hat),
    andb_true_r.
  replace (issued_at + default (7 * 86400) (truthy_delta expires_delta))
    with (match truthy_delta expires_delta with
          | Some d => issued_at + d
          | None => issued_at + 7 * 86400
          end) by (destruct (truthy_delta expires_delta); reflexivity).
  destruct (now <=? _); [| reflexivity].
  unfold getitem. rewrite issued_lookup_scope. simpl.
  rewrite issued_lookup_sub, Hsub. reflexivity.
Qed.

(** A refresh token of one hour with a private claim beside the subject,
    at its last second and one second later. *)
Lemma refresh_token_round_trip_witness :
  let data := <["name" := CStr "alice"]> (sub_claims "a@x.com") in
  decode_refresh_token Sample.tm
    (create_refresh_token Sample.tm data (Some 3600) 1000) 4600 = Return "a@x.com"
  /\ decode_refresh_token Sample.tm
       (create_refresh_token Sample.tm data (Some 3600) 1000) 4601
     = RaiseHTTP (mkHTTPException HTTP_401_UNAUTHORIZED
                    "Could not validate credentials" []).
Proof.
  split.
  - apply (refresh_token_round_trip Sample.tm
             (<["name" := CStr "alice"]> (sub_claims "a@x.com")) (Some 3600) 1000
             4600 "a@x.com"); vm_compute; reflexivity.
  - apply (refresh_token_round_trip Sample.tm
             (<["name" := CStr "alice"]> (sub_claims "a@x.com")) (Some 3600) 1000
             4601 "a@x.com"); vm_compute; reflexivity.
Defined.

(** The tokens the routes issue, for the claims {"sub": email}, read
    before their expiry. *)
Lemma refresh_token_valid
    (self : TokenManager) (email : string) (issued_at now : Z) :
  now <= issued_at + 7 * 86400 ->
  decode_refresh_token self
    (create_refresh_token self (sub_claims email) None issued_at) now
  = Return email.
Proof.
  intros Hnow. unfold decode_refresh_token, create_refresh_token.
  change (truthy_delta None) with (@None Z). cbv iota.
  rewrite jwt_decode_issued, data_passes_sub_claims, andb_true_r.
  rewrite (proj2 (Z.leb_le _ _)) by exact Hnow.
  unfold getitem. rewrite issued_lookup_scope. simpl.
  rewrite issued_lookup_sub. unfold sub_claims. rewrite lookup_singleton_eq.
  reflexivity.
Qed.

Lemma email_token_valid
    (self : TokenManager) (email : string) (issued_at now : Z) :
  now <= issued_at + 7 * 86400 ->
  get_email_from_token self
    (create_email_token self (sub_claims email) issued_at) now
  = Return (Some email).
Proof.
  intros Hnow. unfold get_email_from_token, create_email_token.
  rewrite jwt_decode_issued, data_passes_sub_claims, andb_true_r.
  rewrite (proj2 (Z.leb_le _ _)) by exact Hnow.
  unfold getitem. rewrite issued_lookup_scope. simpl.
  rewrite issued_lookup_sub. unfold sub_claims. rewrite lookup_singleton_eq.
  reflexivity.
Qed.

(** X2: an email-confirmation token issued, within the range of datetime,
    for claims that carry the subject [email] and none of [aud], [nbf],
    [jti] and [at_hash] gives [email] back during 7 days, the last second
    included, and is rejected with 422 afterwards. *)
Theorem email_token_round_trip
    (self : TokenManager) (data : gmap string claim) (issued_at now : Z)
    (email : string) :
  data !! "sub" = Some (CStr email) ->
  data !! "aud" = None -> data !! "nbf" = None ->
  data !! "jti" = None -> data !! "at_hash" = None ->
  in_datetime_range issued_at = true ->
  in_datetime_range (issued_at + 7 * 86400) = true ->
  get_email_from_token self (create_email_token self data issued_at) now
  = if now <=? issued_at + 7 * 86400
    then Return (Some email)
    else RaiseHTTP (mkHTTPException HTTP_422_UNPROCESSABLE_ENTITY
                      "Invalid token for email verification" []).
Proof.
  intros Hsub Haud Hnbf Hjti Hat _ _. unfold get_email_from_token, create_email_token.
  rewrite jwt_decode_issued.
  rewrite (data_passes_subject data (Some email) now Hsub Haud Hnbf Hjti Hat),
    andb_true_r.
  destruct (now <=? _); [| reflexivity].
  unfold getitem. rewrite issued_lookup_scope. simpl.
  rewrite issued_lookup_sub, Hsub. reflexivity.
Qed.

Lemma email_token_round_trip_witness :
  get_email_from_token Sample.tm Scenario.eve_email_token (1000 + 7 * 86400)
    = Return (Some "e@x.com")
  /\ get_email_from_token Sample.tm Scenario.eve_email_token (1000 + 7 * 86400 + 1)
     = RaiseHTTP (mkHTTPException HTTP_422_UNPROCESSABLE_ENTITY
                    "Invalid token for email verification" []).
Proof.
  split.
  - apply (email_token_round_trip Sample.tm (sub_claims "e@x.com") 1000
             (1000 + 7 * 86400) "e@x.com"); vm_compute; reflexivity.
  - apply (email_token_round_trip Sample.tm (sub_claims "e@x.com") 1000
             (1000 + 7 * 86400 + 1) "e@x.com"); vm_compute; reflexivity.
Defined.

(** X3: an access token presented after its expiry (issuing time plus
    the given non-zero lifetime, or plus 15 minutes) is rejected by the
    resolver with the 401 credentials exception, whatever the store and the
    cache hold; the cache is not read. *)
Theorem get_current_user_rejects_expired_access_token
    (self : TokenManager) (data : gmap string claim) (expires_delta : option Z)
    (issued_at now : Z) (db : Session) (r : Redis) :
  issued_at + default (15 * 60) (truthy_delta expires_delta) < now ->
  get_current_user self (create_access_token self data expires_delta issued_at) db r now
  = (RaiseHTTP credentials_exception, r).
Proof.
  intros Hlate. unfold get_current_user, create_access_token.
  rewrite jwt_decode_issued.
  replace (now <=? _) with false; [reflexivity |].
  symmetry. apply Z.leb_gt.
  destruct (truthy_delta expires_delta); simpl in *; lia.
Qed.

Lemma get_current_user_rejects_expired_access_token_witness :
  get_current_user Sample.tm Sample.alice_access Sample.db Scenario.redis_alice 1901
  = (RaiseHTTP credentials_exception, Scenario.redis_alice).
Proof.
  apply (get_current_user_rejects_expired_access_token Sample.tm
           (sub_claims "a@x.com") None 1000 1901 Sample.db Scenario.redis_alice).
  simpl. lia.
Defined.

(** X4: a string that is not a token signed with the manager's key is
    accepted by none of the three verifiers: the resolver and the refresh
    decoder answer 401, the email verifier 422, and the cache is untouched. *)
Theorem verifiers_reject_foreign_tokens
    (self : TokenManager) (t : token) (db : Session) (r : Redis) (now : Z) :
  (forall alg payload, t <> Jws (SECRET_KEY self) alg payload) ->
  get_current_user self t db r now = (RaiseHTTP credentials_exception, r)
  /\ decode_refresh_token self t now
     = RaiseHTTP (mkHTTPException HTTP_401_UNAUTHORIZED
                    "Could not validate credentials" [])
  /\ get_email_from_token self t now
     = RaiseHTTP (mkHTTPException HTTP_422_UNPROCESSABLE_ENTITY
                    "Invalid token for email verification" []).
Proof.
  intros Hforeign.
  assert (Hd : jwt_decode t (SECRET_KEY self) [ALGORITHM self] now = None).
  { destruct (jwt_decode t (SECRET_KEY self) [ALGORITHM self] now) as [p |] eqn:Hd;
      [| reflexivity].
    apply jwt_decode_Some in Hd as (a & -> & _). destruct (Hforeign a p eq_refl). }
  unfold get_current_user, decode_refresh_token, get_email_from_token.
  rewrite Hd. repeat split.
Qed.

Lemma verifiers_reject_foreign_tokens_witness :
  let forged := create_access_token (mkTokenManager "guess" "HS256")
                  (sub_claims "a@x.com") None 1000 in
  get_current_user Sample.tm forged Sample.db Scenario.redis_alice 1500
    = (RaiseHTTP credentials_exception, Scenario.redis_alice)
  /\ decode_refresh_token Sample.tm forged 1500
     = RaiseHTTP (mkHTTPException HTTP_401_UNAUTHORIZED
                    "Could not validate credentials" [])
  /\ get_email_from_token Sample.tm forged 1500
     = RaiseHTTP (mkHTTPException HTTP_422_UNPROCESSABLE_ENTITY
                    "Invalid token for email verification" []).
Proof.
  apply (verifiers_reject_foreign_tokens Sample.tm
           (create_access_token (mkTokenManager "guess" "HS256")
              (sub_claims "a@x.com") None 1000)
           Sample.db Scenario.redis_alice 1500).
  intros alg payload. vm_compute. intros [= H].
Defined.

(** ** The resolver's cache *)

(** The cache after a successful SET and EXPIRE of [u] under [key]. *)
Lemma redis_get_after_set_expire (r : Redis) key (v : pickled) now later :
  redis_get
    (mkRedis true
       (alter (fun ve : pickled * option Z => (ve.1, Some (now + 900))) key
          (<[key := (v, None)]> (store r))))
    key later
  = Return (if later <=? now + 900 then Some v else None).
Proof.
  unfold redis_get. simpl.
  rewrite lookup_alter_eq, lookup_insert_eq. reflexivity.
Qed.

(** X5: on a cache hit the resolver returns the cached user and reads
    nothing from the store: with a valid access token for [email] and an
    unexpired entry under "user:email", the result is the cached user for
    every store, and the cache is left as it was. *)
Theorem get_current_user_cache_hit_ignores_store
    (self : TokenManager) (t : token) (r : Redis) (now : Z)
    (payload : gmap string claim) (email : string) (u : User.t) (e : option Z) :
  jwt_decode t (SECRET_KEY self) [ALGORITHM self] now = Some payload ->
  payload !! "scope" = Some (CStr "access_token") ->
  payload !! "sub" = Some (CStr email) ->
  reachable r = true ->
  store r !! ("user:" +:+ email) = Some (Pickle u, e) ->
  (forall x, e = Some x -> now < x) ->
  forall db : Session, get_current_user self t db r now = (Return u, r).
Proof.
  intros Hd Hscope Hsub Hr Hstore Hfresh db.
  rewrite (get_current_user_reaches_cache _ _ _ _ _ _ _ Hd Hscope Hsub).
  unfold redis_get. rewrite Hr. simpl. rewrite Hstore.
  destruct e as [x |]; [| reflexivity].
  rewrite (proj2 (Z.leb_le _ _)) by (apply Z.lt_le_incl, (Hfresh x eq_refl)).
  reflexivity.
Qed.

(** Alice is cached; the store no longer has her row. *)
Lemma get_current_user_cache_hit_ignores_store_witness :
  get_user_by_email "a@x.com" (mkSession [Sample.bob] []) = None
  /\ get_current_user Sample.tm Sample.alice_access (mkSession [Sample.bob] [])
       Scenario.redis_alice 1500
     = (Return Sample.alice, Scenario.redis_alice).
Proof.
  split; [reflexivity |].
  apply (get_current_user_cache_hit_ignores_store Sample.tm Sample.alice_access
           Scenario.redis_alice 1500
           (<["scope" := CStr "access_token"]>
              (<["exp" := CNum (1000 + 15 * 60)]>
                 (<["iat" := CNum 1000]> (sub_claims "a@x.com"))))
           "a@x.com" Sample.alice (Some 2400)).
  - vm_compute. reflexivity.
  - vm_compute. reflexivity.
  - vm_compute. reflexivity.
  - reflexivity.
  - vm_compute. reflexivity.
  - intros x [= <-]. lia.
Defined.

(** The cache as a miss of the resolver leaves it: [u] under the key of
    [email], expiring 900 seconds after [now]. *)
Lemma get_current_user_miss
    (self : TokenManager) (t : token) (db : Session) (r : Redis) (now : Z)
    (payload : gmap string claim) (email : string) (u : User.t) :
  jwt_decode t (SECRET_KEY self) [ALGORITHM self] now = Some payload ->
  payload !! "scope" = Some (CStr "access_token") ->
  payload !! "sub" = Some (CStr email) ->
  reachable r = true ->
  redis_get r ("user:" +:+ email) now = Return None ->
  get_user_by_email email db = Some u ->
  get_current_user self t db r now
  = (Return u,
     mkRedis true
       (alter (fun ve : pickled * option Z => (ve.1, Some (now + 900)))
          ("user:" +:+ email)
          (<["user:" +:+ email := (Pickle u, None)]> (store r)))).
Proof.
  intros Hd Hscope Hsub Hr Hmiss Hu.
  rewrite (get_current_user_reaches_cache _ _ _ _ _ _ _ Hd Hscope Hsub).
  change (claim_str (CStr email)) with email. rewrite Hmiss, Hu.
  unfold redis_set, redis_expire. rewrite Hr. reflexivity.
Qed.

(** The resolver on the cache a miss at [now] has filled, at a later time. *)
Lemma get_current_user_after_miss
    (self : TokenManager) (t : token) (db : Session) (r : Redis) (now later : Z)
    (payload : gmap string claim) (email : string) (u : User.t) :
  jwt_decode t (SECRET_KEY self) [ALGORITHM self] later = Some payload ->
  payload !! "scope" = Some (CStr "access_token") ->
  payload !! "sub" = Some (CStr email) ->
  let r2 :=
    mkRedis true
      (alter (fun ve : pickled * option Z => (ve.1, Some (now + 900)))
         ("user:" +:+ email)
         (<["user:" +:+ email := (Pickle u, None)]> (store r))) in
  (later <= now + 900 -> get_current_user self t db r2 later = (Return u, r2))
  /\ (now + 900 < later ->
      (get_current_user self t db r2 later).1
      = match get_user_by_email email db with
        | Some u' => Return u'
        | None => RaiseHTTP credentials_exception
        end).
Proof.
  intros Hd Hscope Hsub r2. subst r2.
  rewrite (get_current_user_reaches_cache _ _ _ _ _ _ _ Hd Hscope Hsub).
  change (claim_str (CStr email)) with email.
  rewrite redis_get_after_set_expire. split; intros Hlater.
  - rewrite (proj2 (Z.leb_le _ _) Hlater). reflexivity.
  - rewrite (proj2 (Z.leb_gt _ _) Hlater).
    destruct (get_user_by_email email db); reflexivity.
Qed.

(** X6: a cache miss fills the cache for 900 seconds.  With a valid
    access token for a stored user, a cache that answers and has no live
    entry, the resolver returns the stored user; up to 900 seconds later,
    the 900th included, the same token gets that same user back whatever
    the store has become, and after that the store is asked again. *)
Theorem get_current_user_miss_fills_cache_for_900_seconds
    (self : TokenManager) (t : token) (db : Session) (r : Redis) (now : Z)
    (payload : gmap string claim) (email : string) (u : User.t) :
  jwt_decode t (SECRET_KEY self) [ALGORITHM self] now = Some payload ->
  payload !! "scope" = Some (CStr "access_token") ->
  payload !! "sub" = Some (CStr email) ->
  reachable r = true ->
  redis_get r ("user:" +:+ email) now = Return None ->
  get_user_by_email email db = Some u ->
  exists r2,
    get_current_user self t db r now = (Return u, r2)
    /\ (forall later db',
          jwt_decode t (SECRET_KEY self) [ALGORITHM self] later = Some payload ->
          later <= now + 900 ->
          get_current_user self t db' r2 later = (Return u, r2))
    /\ (forall later db',
          jwt_decode t (SECRET_KEY self) [ALGORITHM self] later = Some payload ->
          now + 900 < later ->
          (get_current_user self t db' r2 later).1
          = match get_user_by_email email db' with
            | Some u' => Return u'
            | None => RaiseHTTP credentials_exception
            end).
Proof.
  intros Hd Hscope Hsub Hr Hmiss Hu.
  eexists. split; [| split].
  - apply (get_current_user_miss _ _ _ _ _ _ _ _ Hd Hscope Hsub Hr Hmiss Hu).
  - intros later db' Hd' Hlater.
    apply (get_current_user_after_miss self t db' r now later payload email u
             Hd' Hscope Hsub), Hlater.
  - intros later db' Hd' Hlater.
    apply (get_current_user_after_miss self t db' r now later payload email u
             Hd' Hscope Hsub), Hlater.
Qed.

(** Alice resolves a token of one hour at time 1000 on an empty cache;
    her row is then deleted.  At 1900 the entry still lives and she is
    returned; at 1901 the store is asked and the answer is 401. *)
Lemma get_current_user_miss_fills_cache_for_900_seconds_witness :
  let t := create_access_token Sample.tm (sub_claims "a@x.com") (Some 3600) 1000 in
  let gone := mkSession [Sample.bob] [] in
  exists r2,
    get_current_user Sample.tm t Sample.db Sample.redis_up 1000 = (Return Sample.alice, r2)
    /\ get_current_user Sample.tm t gone r2 1900 = (Return Sample.alice, r2)
    /\ (get_current_user Sample.tm t gone r2 1901).1 = RaiseHTTP credentials_exception.
Proof.
  destruct (get_current_user_miss_fills_cache_for_900_seconds Sample.tm
              (create_access_token Sample.tm (sub_claims "a@x.com") (Some 3600) 1000)
              Sample.db Sample.redis_up 1000
              (<["scope" := CStr "access_token"]>
                 (<["exp" := CNum (1000 + 3600)]>
                    (<["iat" := CNum 1000]> (sub_claims "a@x.com"))))
              "a@x.com" Sample.alice)
    as (r2 & Hfirst & Hlive & Hgone).
  - vm_compute. reflexivity.
  - vm_compute. reflexivity.
  - vm_compute. reflexivity.
  - reflexivity.
  - vm_compute. reflexivity.
  - vm_compute. reflexivity.
  - exists r2. split; [exact Hfirst |]. split.
    + apply Hlive; [vm_compute; reflexivity | lia].
    + rewrite Hgone; [reflexivity | vm_compute; reflexivity | lia].
Defined.

(** X7: with a cache that answers and holds only pickled users, the
    resolver ends in one of two ways for every bearer string, store and
    time: it returns a user, or it raises the 401 credentials exception. *)
Theorem get_current_user_returns_or_401
    (self : TokenManager) (t : token) (db : Session) (r : Redis) (now : Z) :
  reachable r = true ->
  (forall key raw e, store r !! key <> Some (Garbled raw, e)) ->
  (exists u, (get_current_user self t db r now).1 = Return u)
  \/ (get_current_user self t db r now).1 = RaiseHTTP credentials_exception.
Proof.
  intros Hr Hclean. unfold get_current_user.
  destruct (jwt_decode _ _ _ _) as [payload |]; [| right; reflexivity].
  destruct (bool_decide _); [| right; reflexivity].
  destruct (payload !! "sub") as [sub |]; [| right; reflexivity].
  unfold redis_get. rewrite Hr.
  destruct (store r !! _) as [[v e] |] eqn:Hstore.
  - assert (Hv : exists u, v = Pickle u).
    { destruct v as [u | raw]; [eauto |]. destruct (Hclean _ _ _ Hstore). }
    destruct Hv as [u ->].
    destruct e as [x |]; [destruct (now <=? x) |]; simpl;
      try (left; eexists; reflexivity).
    destruct (get_user_by_email _ db) as [u' |]; [| right; reflexivity].
    unfold redis_set, redis_expire. rewrite Hr. simpl. left. eexists. reflexivity.
  - destruct (get_user_by_email _ db) as [u' |]; [| right; reflexivity].
    unfold redis_set, redis_expire. rewrite Hr. simpl. left. eexists. reflexivity.
Qed.

Lemma get_current_user_returns_or_401_witness :
  (exists u, (get_current_user Sample.tm (Opaque "Bearer") Sample.db
                Scenario.redis_alice 1500).1 = Return u)
  \/ (get_current_user Sample.tm (Opaque "Bearer") Sample.db
        Scenario.redis_alice 1500).1 = RaiseHTTP credentials_exception.
Proof.
  apply (get_current_user_returns_or_401 Sample.tm (Opaque "Bearer") Sample.db
           Scenario.redis_alice 1500).
  - reflexivity.
  - intros key raw e Hstore. unfold Scenario.redis_alice in Hstore. simpl in Hstore.
    apply lookup_singleton_Some in Hstore as [_ Heq]. discriminate Heq.
Defined.



(** ** Rows of the user table *)

(** A lookup by email after an update of rows that keeps every email. *)
Lemma find_email_map email (g : User.t -> User.t) (rows : list User.t) :
  (forall x, User.email (g x) = User.email x) ->
  List.find (fun x => bool_decide (User.email x = email)) (List.map g rows)
  = g <$> List.find (fun x => bool_decide (User.email x = email)) rows.
Proof.
  intros Hg. induction rows as [| x rows IH]; simpl; [reflexivity |].
  rewrite Hg. destruct (bool_decide (User.email x = email)); [reflexivity | exact IH].
Qed.

Lemma get_user_by_email_email email db u :
  get_user_by_email email db = Some u -> User.email u = email.
Proof.
  unfold get_user_by_email. intros H. apply List.find_some in H as [_ H].
  apply bool_decide_eq_true_1 in H. exact H.
Qed.

(** X9: [update_token] changes the refresh token of the rows with the
    user's primary key and nothing else: a lookup by any email afterwards
    gives the row found before, with the new token if it has that key and
    untouched otherwise, and the contacts are unchanged. *)
Theorem update_token_changes_only_that_user
    (u : User.t) (rt : option token) (db : Session) (email : string) :
  get_user_by_email email (update_token u rt db)
  = (fun x => if bool_decide (User.id x = User.id u)
              then User.set_refresh_token x rt else x)
      <$> get_user_by_email email db
  /\ contacts (update_token u rt db) = contacts db
  /\ List.map User.email (users (update_token u rt db)) = List.map User.email (users db).
Proof.
  split; [| split].
  - unfold get_user_by_email, update_token. simpl. apply find_email_map.
    intros x. destruct (bool_decide (User.id x = User.id u)); reflexivity.
  - reflexivity.
  - unfold update_token. simpl. rewrite List.map_map. apply List.map_ext.
    intros x. destruct (bool_decide (User.id x = User.id u)); reflexivity.
Qed.

(** ** Login *)

(** X10: login returns a token pair exactly when the email has a row,
    the row is confirmed and the password verifies; every other login
    leaves the store as it was. *)
Theorem login_succeeds_iff
    (auth_service : AuthService) (body : OAuth2PasswordRequestForm)
    (db : Session) (now : Z) :
  ((exists tokens, (login auth_service body db now).1 = Return tokens)
   <-> exists u, get_user_by_email (form_username body) db = Some u
                 /\ User.confirmed u = true
                 /\ verify_password (password_manager auth_service)
                      (form_password body) (User.password u) = Return true)
  /\ ((forall tokens, (login auth_service body db now).1 <> Return tokens) ->
      (login auth_service body db now).2 = db).
Proof.
  unfold login.
  destruct (get_user_by_email (form_username body) db) as [u |]; simpl.
  - destruct (User.confirmed u) eqn:Hc; simpl.
    + destruct (verify_password _ _ _) as [[|] | e | e] eqn:Hv; simpl.
      * split.
        -- split; [intros _; exists u; auto | intros _; eexists; reflexivity].
        -- intros H. destruct (H _ eq_refl).
      * split; [| reflexivity].
        split; [intros [? [=]] | intros (u' & [= <-] & _ & Hv'); congruence].
      * split; [| reflexivity].
        split; [intros [? [=]] | intros (u' & [= <-] & _ & Hv'); congruence].
      * split; [| reflexivity].
        split; [intros [? [=]] | intros (u' & [= <-] & _ & Hv'); congruence].
    + split; [| reflexivity].
      split; [intros [? [=]] | intros (u' & [= <-] & Hc' & _); congruence].
  - split; [| reflexivity].
    split; [intros [? [=]] | intros (u' & [=] & _)].
Qed.

Lemma login_succeeds_iff_witness :
  (exists tokens, (login Sample.auth (mkForm "a@x.com" "pw123") Sample.db 1000).1
                  = Return tokens)
  /\ (login Sample.auth (mkForm "a@x.com" "wrong") Sample.db 1000).2 = Sample.db.
Proof.
  split.
  - apply (login_succeeds_iff Sample.auth (mkForm "a@x.com" "pw123") Sample.db 1000).
    exists Sample.alice. repeat split.
  - apply (login_succeeds_iff Sample.auth (mkForm "a@x.com" "wrong") Sample.db 1000).
    intros tokens. vm_compute. intros [= H].
Defined.

(** X11: after a successful login the pair is usable: the refresh token
    returned is the one stored for the user, it decodes to the user's email
    during 7 days, and during 15 minutes the access token resolves, on a
    cache that answers and has no live entry, to the user's row as the
    login left it. *)
Theorem login_tokens_are_usable
    (auth_service : AuthService) (body : OAuth2PasswordRequestForm)
    (db : Session) (now : Z) (u : User.t) :
  get_user_by_email (form_username body) db = Some u ->
  User.confirmed u = true ->
  verify_password (password_manager auth_service)
    (form_password body) (User.password u) = Return true ->
  exists access refresh db',
    login auth_service body db now = (Return (mkTokenModel access refresh "bearer"), db')
    /\ get_user_by_email (User.email u) db'
       = Some (User.set_refresh_token u (Some refresh))
    /\ (forall later, later <= now + 7 * 86400 ->
          decode_refresh_token (token_manager auth_service) refresh later
          = Return (User.email u))
    /\ (forall later r,
          later <= now + 15 * 60 ->
          reachable r = true ->
          redis_get r ("user:" +:+ User.email u) later = Return None ->
          (get_current_user (token_manager auth_service) access db' r later).1
          = Return (User.set_refresh_token u (Some refresh))).
Proof.
  intros Hu Hc Hv.
  pose proof (get_user_by_email_email _ _ _ Hu) as Hemail.
  eexists _, _, _. split; [| split; [| split]].
  - unfold login. rewrite Hu, Hc, Hv. simpl. reflexivity.
  - apply get_user_by_email_update_token. rewrite Hemail. exact Hu.
  - intros later Hlater.
    apply refresh_token_valid, Hlater.
  - intros later r Hlater Hr Hmiss.
    assert (Hd : jwt_decode
                   (create_access_token (token_manager auth_service)
                      (sub_claims (User.email u)) None now)
                   (SECRET_KEY (token_manager auth_service))
                   [ALGORITHM (token_manager auth_service)] later
                 = Some (<["scope" := CStr "access_token"]>
                           (<["exp" := CNum (now + 15 * 60)]>
                              (<["iat" := CNum now]> (sub_claims (User.email u)))))).
    { unfold create_access_token. rewrite jwt_decode_issued.
      change (truthy_delta None) with (@None Z). cbv iota.
      rewrite (proj2 (Z.leb_le _ _)) by exact Hlater.
      rewrite data_passes_sub_claims. reflexivity. }
    rewrite (get_current_user_reaches_cache _ _ _ _ _ _ (CStr (User.email u)) Hd).
    + change (claim_str (CStr (User.email u))) with (User.email u).
      rewrite Hmiss.
      rewrite (get_user_by_email_update_token (User.email u) db u)
        by (rewrite Hemail; exact Hu).
      unfold redis_set, redis_expire. rewrite Hr. reflexivity.
    + apply issued_lookup_scope.
    + rewrite issued_lookup_sub. apply lookup_singleton_eq.
Qed.

Lemma login_tokens_are_usable_witness :
  exists access refresh db',
    login Sample.auth (mkForm "a@x.com" "pw123") Sample.db 1000
      = (Return (mkTokenModel access refresh "bearer"), db')
    /\ get_user_by_email "a@x.com" db'
       = Some (User.set_refresh_token Sample.alice (Some refresh))
    /\ decode_refresh_token Sample.tm refresh 5000 = Return "a@x.com"
    /\ (get_current_user Sample.tm access db' Sample.redis_up 1500).1
       = Return (User.set_refresh_token Sample.alice (Some refresh)).
Proof.
  destruct (login_tokens_are_usable Sample.auth (mkForm "a@x.com" "pw123")
              Sample.db 1000 Sample.alice)
    as (access & refresh & db' & Hlogin & Hrow & Hrefresh & Haccess);
    try reflexivity.
  exists access, refresh, db'. split; [exact Hlogin |]. split; [exact Hrow |].
  split.
  - apply Hrefresh. lia.
  - apply Haccess; [lia | reflexivity | reflexivity].
Defined.

(** ** The refresh endpoint *)

(** X12: the refresh endpoint never answers with a token pair, and never
    stores a new refresh token: whatever the request, the store afterwards
    is the store before, or the store before with one user's refresh token
    cleared. *)
Theorem refresh_token_never_returns_tokens
    (auth_service : AuthService) (tok : token) (db : Session) (now : Z) :
  (forall tokens, (refresh_token auth_service tok db now).1 <> Return tokens)
  /\ ((refresh_token auth_service tok db now).2 = db
      \/ exists u, (refresh_token auth_service tok db now).2 = update_token u None db).
Proof.
  unfold refresh_token.
  destruct (decode_refresh_token _ tok now) as [email | e | e]; simpl;
    try (split; [discriminate | left; reflexivity]).
  destruct (get_user_by_email email db) as [u |]; simpl;
    try (split; [discriminate | left; reflexivity]).
  destruct (bool_decide (User.refresh_token u ≠ Some tok)); simpl.
  - split; [discriminate | right; eauto].
  - split; [discriminate | left; reflexivity].
Qed.

(** Alice's refresh token on the store where no token is stored for her. *)
Lemma refresh_token_never_returns_tokens_witness :
  (forall tokens,
     (refresh_token Sample.auth Sample.alice_refresh Sample.db 1500).1 <> Return tokens)
  /\ ((refresh_token Sample.auth Sample.alice_refresh Sample.db 1500).2 = Sample.db
      \/ exists u, (refresh_token Sample.auth Sample.alice_refresh Sample.db 1500).2
                   = update_token u None Sample.db).
Proof.
  apply (refresh_token_never_returns_tokens Sample.auth Sample.alice_refresh
           Sample.db 1500).
Defined.

(** X13: presenting a stale refresh token ends the session for every
    token: after a refresh request with a valid token that differs from the
    stored one, a refresh request with any valid token of the same user,
    the one that was stored included, fails with 401 and the stored value
    stays cleared. *)
Theorem refresh_mismatch_ends_session
    (auth_service : AuthService) (stale tok : token) (db : Session) (now later : Z)
    (email : string) (u : User.t) :
  decode_refresh_token (token_manager auth_service) stale now = Return email ->
  decode_refresh_token (token_manager auth_service) tok later = Return email ->
  get_user_by_email email db = Some u ->
  User.refresh_token u <> Some stale ->
  let db1 := (refresh_token auth_service stale db now).2 in
  let second := refresh_token auth_service tok db1 later in
  second.1 = RaiseHTTP (mkHTTPException HTTP_401_UNAUTHORIZED "Invalid refresh token" [])
  /\ exists u', get_user_by_email email second.2 = Some u'
                /\ User.refresh_token u' = None.
Proof.
  intros Hstale Htok Hu Hne. simpl.
  assert (Hfirst : (refresh_token auth_service stale db now).2 = update_token u None db).
  { unfold refresh_token. rewrite Hstale, Hu.
    rewrite bool_decide_eq_true_2 by exact Hne. reflexivity. }
  rewrite Hfirst.
  pose proof (get_user_by_email_update_token email db u None Hu) as Hu1.
  unfold refresh_token at 1 2. rewrite Htok, Hu1.
  rewrite bool_decide_eq_true_2 by (simpl; discriminate).
  simpl. split; [reflexivity |].
  eexists. split; [apply get_user_by_email_update_token, Hu1 | reflexivity].
Qed.

(** Alice logs in at 1000 and at 2000, presents the token of the first
    login at 3000 and the token of the second, the stored one, at 3100. *)
Lemma refresh_mismatch_ends_session_witness :
  let current := create_refresh_token Sample.tm (sub_claims "a@x.com") None 2000 in
  let db2 := (login Sample.auth (mkForm "a@x.com" "pw123") Sample.db_logged_in 2000).2 in
  (User.refresh_token <$> get_user_by_email "a@x.com" db2) = Some (Some current)
  /\ let db3 := (refresh_token Sample.auth Sample.alice_refresh db2 3000).2 in
     let second := refresh_token Sample.auth current db3 3100 in
     second.1 = RaiseHTTP (mkHTTPException HTTP_401_UNAUTHORIZED
                             "Invalid refresh token" [])
     /\ exists u', get_user_by_email "a@x.com" second.2 = Some u'
                   /\ User.refresh_token u' = None.
Proof.
  split; [vm_compute; reflexivity |].
  apply (refresh_mismatch_ends_session Sample.auth Sample.alice_refresh
           (create_refresh_token Sample.tm (sub_claims "a@x.com") None 2000)
           (login Sample.auth (mkForm "a@x.com" "pw123") Sample.db_logged_in 2000).2
           3000 3100 "a@x.com"
           (User.set_refresh_token Sample.alice
              (Some (create_refresh_token Sample.tm (sub_claims "a@x.com") None 2000)))).
  - vm_compute. reflexivity.
  - vm_compute. reflexivity.
  - vm_compute. reflexivity.
  - vm_compute. intros [= H].
Defined.

(** ** Signup and email confirmation *)

Lemma find_app_singleton {A} (f : A -> bool) (l : list A) (x : A) :
  List.find f (l ++ [x])
  = match List.find f l with
    | Some y => Some y
    | None => if f x then Some x else None
    end.
Proof.
  induction l as [| y l IH]; simpl; [reflexivity |].
  destruct (f y); [reflexivity | exact IH].
Qed.

(** What signup answers and stores for a new email. *)
Lemma signup_new_email
    (auth_service : AuthService) (hash gravatar : string -> string)
    (default_roles : Role) (base_url : string) (body : UserModel) (db : Session) :
  get_user_by_email (body_email body) db = None ->
  let new_user :=
    User.mk (fresh_id (List.map User.id (users db))) (body_username body)
      (body_email body) (hash (body_password body)) false None default_roles
      (gravatar (body_email body)) in
  signup auth_service hash gravatar default_roles base_url body db
  = (Return new_user,
     [mkSendEmail (body_email body) (body_username body) base_url],
     mkSession (users db ++ [new_user]) (contacts db))
  /\ get_user_by_email (body_email body)
       (mkSession (users db ++ [new_user]) (contacts db)) = Some new_user.
Proof.
  intros Hnew. simpl. split.
  - unfold signup. rewrite Hnew. reflexivity.
  - unfold get_user_by_email in *. simpl. rewrite find_app_singleton, Hnew. simpl.
    rewrite bool_decide_eq_true_2 by reflexivity. reflexivity.
Qed.

(** X14: signing up with an email that has no row adds one row, found by
    that email afterwards: unconfirmed, without refresh token, holding the
    hash of the password and not the password as sent; one confirmation
    email is queued for it, lookups by other emails are unchanged, and a
    second signup with the same email is refused with 409 and changes
    nothing. *)
Theorem signup_adds_unconfirmed_user
    (auth_service : AuthService) (hash gravatar : string -> string)
    (default_roles : Role) (base_url : string) (body : UserModel) (db : Session) :
  get_user_by_email (body_email body) db = None ->
  exists new_user db',
    signup auth_service hash gravatar default_roles base_url body db
    = (Return new_user,
       [mkSendEmail (body_email body) (body_username body) base_url], db')
    /\ get_user_by_email (body_email body) db' = Some new_user
    /\ User.confirmed new_user = false
    /\ User.refresh_token new_user = None
    /\ User.password new_user = hash (body_password body)
    /\ (forall e, e <> body_email body ->
                  get_user_by_email e db' = get_user_by_email e db)
    /\ (forall body2, body_email body2 = body_email body ->
          signup auth_service hash gravatar default_roles base_url body2 db'
          = (RaiseHTTP (mkHTTPException HTTP_409_CONFLICT "Account already exists" []),
             [], db')).
Proof.
  intros Hnew.
  destruct (signup_new_email auth_service hash gravatar default_roles base_url
              body db Hnew) as [Hs Hfound].
  eexists _, _. split; [exact Hs |]. split; [exact Hfound |]. repeat split.
  - intros e He. unfold get_user_by_email. simpl. rewrite find_app_singleton. simpl.
    destruct (List.find _ (users db)); [reflexivity |].
    rewrite bool_decide_eq_false_2 by (intros Heq; apply He; symmetry; exact Heq).
    reflexivity.
  - intros body2 Hsame. unfold signup. rewrite Hsame, Hfound. reflexivity.
Qed.

Lemma signup_adds_unconfirmed_user_witness :
  Scenario.eve_signup
    = (Return Scenario.eve, [mkSendEmail "e@x.com" "eve" "http://host/"],
       mkSession [Sample.alice; Sample.bob; Scenario.eve] (contacts Sample.db))
  /\ exists new_user db',
       signup Sample.auth Scenario.hash Scenario.gravatar user "http://host/"
         Scenario.eve_body Sample.db
       = (Return new_user, [mkSendEmail "e@x.com" "eve" "http://host/"], db')
       /\ get_user_by_email "e@x.com" db' = Some new_user
       /\ User.confirmed new_user = false.
Proof.
  split; [vm_compute; reflexivity |].
  destruct (signup_adds_unconfirmed_user Sample.auth Scenario.hash Scenario.gravatar
              user "http://host/" Scenario.eve_body Sample.db eq_refl)
    as (new_user & db' & Hs & Hfound & Hc & _).
  exists new_user, db'. auto.
Defined.

Lemma find_email_set_confirmed email (u : User.t) (rows : list User.t) :
  List.find (fun x => bool_decide (User.email x = email)) rows = Some u ->
  List.find (fun x => bool_decide (User.email x = email))
    (List.map (fun x => if bool_decide (User.id x = User.id u)
                        then set_confirmed x true else x) rows)
  = Some (set_confirmed u true).
Proof.
  intros Hfind. rewrite find_email_map.
  - rewrite Hfind. simpl.
    rewrite (bool_decide_eq_true_2 (User.id u = User.id u) eq_refl). reflexivity.
  - intros x. destruct (bool_decide (User.id x = User.id u)); reflexivity.
Qed.

(** X15: the confirmation route, given a token that
    [get_email_from_token] resolves to the email of an unconfirmed row,
    marks that row confirmed and answers "Email confirmed"; the same request
    again answers "Your email is already confirmed" and changes nothing; the
    contacts are never touched. *)
Theorem confirmed_email_confirms_once
    (auth_service : AuthService) (t : token) (db : Session) (now later : Z)
    (email : string) (u : User.t) :
  get_email_from_token (token_manager auth_service) t now = Return (Some email) ->
  get_email_from_token (token_manager auth_service) t later = Return (Some email) ->
  get_user_by_email email db = Some u ->
  User.confirmed u = false ->
  exists db',
    confirmed_email auth_service t db now = (Return "Email confirmed", db')
    /\ get_user_by_email email db' = Some (set_confirmed u true)
    /\ contacts db' = contacts db
    /\ confirmed_email auth_service t db' later
       = (Return "Your email is already confirmed", db').
Proof.
  intros Ht Ht' Hu Hc. unfold confirmed_email at 1.
  rewrite Ht. simpl. rewrite Hu, Hc.
  unfold repository_users.confirmed_email. rewrite Hu.
  eexists. split; [reflexivity |].
  assert (Hfound :
    get_user_by_email email
      (mkSession
         (List.map (fun x => if bool_decide (User.id x = User.id u)
                             then set_confirmed x true else x) (users db))
         (contacts db))
    = Some (set_confirmed u true)).
  { unfold get_user_by_email in *. simpl. apply find_email_set_confirmed, Hu. }
  split; [exact Hfound |]. split; [reflexivity |].
  unfold confirmed_email. rewrite Ht'. simpl. rewrite Hfound. reflexivity.
Qed.

Lemma confirmed_email_confirms_once_witness :
  exists db',
    confirmed_email Sample.auth Scenario.eve_email_token Scenario.db_signed_up 2000
      = (Return "Email confirmed", db')
    /\ get_user_by_email "e@x.com" db' = Some (set_confirmed Scenario.eve true)
    /\ contacts db' = contacts Scenario.db_signed_up
    /\ confirmed_email Sample.auth Scenario.eve_email_token db' 3000
       = (Return "Your email is already confirmed", db').
Proof.
  apply (confirmed_email_confirms_once Sample.auth Scenario.eve_email_token
           Scenario.db_signed_up 2000 3000 "e@x.com" Scenario.eve);
    vm_compute; reflexivity.
Defined.

(** X16: the confirmation route refuses tokens of another purpose: for a
    validly signed, unexpired token whose scope is not "email_token" (an
    access or refresh token of the same user, say) the answer is 400
    "Verification error" and the store is unchanged. *)
Theorem confirmed_email_rejects_other_scopes
    (auth_service : AuthService) (t : token) (db : Session) (now : Z)
    (payload : gmap string claim) (scope : claim) :
  jwt_decode t (SECRET_KEY (token_manager auth_service))
    [ALGORITHM (token_manager auth_service)] now = Some payload ->
  payload !! "scope" = Some scope ->
  scope <> CStr "email_token" ->
  confirmed_email auth_service t db now
  = (RaiseHTTP (mkHTTPException HTTP_400_BAD_REQUEST "Verification error" []), db).
Proof.
  intros Hd Hscope Hne. unfold confirmed_email, get_email_from_token, getitem.
  rewrite Hd, Hscope. simpl.
  rewrite bool_decide_eq_false_2 by exact Hne. reflexivity.
Qed.

Lemma confirmed_email_rejects_other_scopes_witness :
  let eve_access := create_access_token Sample.tm (sub_claims "e@x.com") None 1000 in
  confirmed_email Sample.auth eve_access Scenario.db_signed_up 1500
  = (RaiseHTTP (mkHTTPException HTTP_400_BAD_REQUEST "Verification error" []),
     Scenario.db_signed_up).
Proof.
  apply (confirmed_email_rejects_other_scopes Sample.auth
           (create_access_token Sample.tm (sub_claims "e@x.com") None 1000)
           Scenario.db_signed_up 1500
           (<["scope" := CStr "access_token"]>
              (<["exp" := CNum (1000 + 15 * 60)]>
                 (<["iat" := CNum 1000]> (sub_claims "e@x.com"))))
           (CStr "access_token")).
  - vm_compute. reflexivity.
  - vm_compute. reflexivity.
  - intros [= H].
Defined.

(** X17: the account life cycle.  For an email without a row and a hasher
    whose hash of the password verifies against it: after signup, login
    with the right password is refused with 401 "Email not confirmed";
    after the confirmation route has accepted an email token issued for
    that email within its 7 days, the same login returns a token pair. *)
Theorem signup_confirm_login
    (auth_service : AuthService) (hash gravatar : string -> string)
    (default_roles : Role) (base_url : string) (body : UserModel) (db : Session)
    (issued_at confirmed_at t1 t2 : Z) :
  get_user_by_email (body_email body) db = None ->
  verify_password (password_manager auth_service)
    (body_password body) (hash (body_password body)) = Return true ->
  confirmed_at <= issued_at + 7 * 86400 ->
  let form := mkForm (body_email body) (body_password body) in
  let db1 := (signup auth_service hash gravatar default_roles base_url body db).2 in
  let email_token :=
    create_email_token (token_manager auth_service)
      (sub_claims (body_email body)) issued_at in
  let db2 := (confirmed_email auth_service email_token db1 confirmed_at).2 in
  login auth_service form db1 t1
    = (RaiseHTTP (mkHTTPException HTTP_401_UNAUTHORIZED "Email not confirmed" []), db1)
  /\ (confirmed_email auth_service email_token db1 confirmed_at).1
     = Return "Email confirmed"
  /\ exists tokens, (login auth_service form db2 t2).1 = Return tokens.
Proof.
  intros Hnew Hverify Hfresh. simpl.
  destruct (signup_new_email auth_service hash gravatar default_roles base_url
              body db Hnew) as [Hs Hfound].
  rewrite Hs. simpl in *.
  set (new_user := User.mk (fresh_id (List.map User.id (users db))) (body_username body)
                     (body_email body) (hash (body_password body)) false None
                     default_roles (gravatar (body_email body))) in *.
  set (db1 := mkSession (users db ++ [new_user]) (contacts db)) in *.
  assert (Htok : get_email_from_token (token_manager auth_service)
                   (create_email_token (token_manager auth_service)
                      (sub_claims (body_email body)) issued_at) confirmed_at
                 = Return (Some (body_email body))).
  { apply email_token_valid, Hfresh. }
  assert (Hconfirm :
    confirmed_email auth_service
      (create_email_token (token_manager auth_service)
         (sub_claims (body_email body)) issued_at) db1 confirmed_at
    = (Return "Email confirmed",
       mkSession
         (List.map (fun x => if bool_decide (User.id x = User.id new_user)
                             then set_confirmed x true else x) (users db1))
         (contacts db1))).
  { unfold confirmed_email. rewrite Htok. simpl. rewrite Hfound. simpl.
    unfold repository_users.confirmed_email. rewrite Hfound. reflexivity. }
  split; [| split].
  - unfold login. simpl. rewrite Hfound. reflexivity.
  - rewrite Hconfirm. reflexivity.
  - rewrite Hconfirm.
    assert (Hfound2 :
      get_user_by_email (body_email body)
        (mkSession
           (List.map (fun x => if bool_decide (User.id x = User.id new_user)
                               then set_confirmed x true else x) (users db1))
           (contacts db1))
      = Some (set_confirmed new_user true)).
    { unfold get_user_by_email in *. apply find_email_set_confirmed, Hfound. }
    unfold login. cbn [form_username form_password snd].
    rewrite Hfound2. cbn [set_confirmed User.confirmed User.password negb new_user].
    rewrite Hverify. eexists. reflexivity.
Qed.

Lemma signup_confirm_login_witness :
  let form := mkForm "e@x.com" "pw-eve" in
  login Sample.auth form Scenario.db_signed_up 1500
    = (RaiseHTTP (mkHTTPException HTTP_401_UNAUTHORIZED "Email not confirmed" []),
       Scenario.db_signed_up)
  /\ (confirmed_email Sample.auth Scenario.eve_email_token Scenario.db_signed_up 2000).1
     = Return "Email confirmed"
  /\ exists tokens, (login Sample.auth form Scenario.db_confirmed 2500).1 = Return tokens.
Proof.
  apply (signup_confirm_login Sample.auth Scenario.hash Scenario.gravatar user
           "http://host/" Scenario.eve_body Sample.db 1000 2000 1500 2500).
  - reflexivity.
  - reflexivity.
  - lia.
Defined.

(** ** Avatar updates and the cache *)

(** X18: [update_avatar] stores the new URL in the user's row and returns
    the updated row, but the resolver does not see it while its cache entry
    lives: after a cache miss at [now], the same token resolves until
    [now] + 900 to the user as cached, with the avatar of before. *)
Theorem update_avatar_not_seen_through_cache
    (self : TokenManager) (t : token) (db : Session) (r : Redis) (now later : Z)
    (payload : gmap string claim) (email url : string) (u : User.t) :
  jwt_decode t (SECRET_KEY self) [ALGORITHM self] now = Some payload ->
  jwt_decode t (SECRET_KEY self) [ALGORITHM self] later = Some payload ->
  payload !! "scope" = Some (CStr "access_token") ->
  payload !! "sub" = Some (CStr email) ->
  reachable r = true ->
  redis_get r ("user:" +:+ email) now = Return None ->
  get_user_by_email email db = Some u ->
  later < now + 900 ->
  let r2 := (get_current_user self t db r now).2 in
  let updated := repository_users.update_avatar email url db in
  updated.1 = Return (set_avatar u url)
  /\ get_user_by_email email updated.2 = Some (set_avatar u url)
  /\ get_current_user self t updated.2 r2 later = (Return u, r2).
Proof.
  intros Hd Hd' Hscope Hsub Hr Hmiss Hu Hlater. simpl.
  rewrite (get_current_user_miss _ _ _ _ _ _ _ _ Hd Hscope Hsub Hr Hmiss Hu).
  unfold repository_users.update_avatar. rewrite Hu. simpl.
  split; [reflexivity |]. split.
  - unfold get_user_by_email in *. simpl. rewrite find_email_map.
    + rewrite Hu. simpl.
      rewrite (bool_decide_eq_true_2 (User.id u = User.id u) eq_refl). reflexivity.
    + intros x. destruct (bool_decide (User.id x = User.id u)); reflexivity.
  - apply (get_current_user_after_miss self t _ r now later payload email u
             Hd' Hscope Hsub), Z.lt_le_incl, Hlater.
Qed.

Lemma update_avatar_not_seen_through_cache_witness :
  let r2 := (get_current_user Sample.tm Sample.alice_access Sample.db
               Sample.redis_up 1000).2 in
  let updated := repository_users.update_avatar "a@x.com" "avatar-new" Sample.db in
  updated.1 = Return (set_avatar Sample.alice "avatar-new")
  /\ get_user_by_email "a@x.com" updated.2 = Some (set_avatar Sample.alice "avatar-new")
  /\ get_current_user Sample.tm Sample.alice_access updated.2 r2 1500
     = (Return Sample.alice, r2).
Proof.
  apply (update_avatar_not_seen_through_cache Sample.tm Sample.alice_access Sample.db
           Sample.redis_up 1000 1500
           (<["scope" := CStr "access_token"]>
              (<["exp" := CNum (1000 + 15 * 60)]>
                 (<["iat" := CNum 1000]> (sub_claims "a@x.com"))))
           "a@x.com" "avatar-new" Sample.alice).
  - vm_compute. reflexivity.
  - vm_compute. reflexivity.
  - vm_compute. reflexivity.
  - vm_compute. reflexivity.
  - reflexivity.
  - vm_compute. reflexivity.
  - vm_compute. reflexivity.
  - lia.
Defined.

(** ** Contact lists *)

Lemma firstn_add {A} (a b : nat) (l : list A) :
  List.firstn (a + b) l = (List.firstn a l ++ List.firstn b (List.skipn a l))%list.
Proof.
  revert l. induction a as [| a IH]; intros l; simpl; [reflexivity |].
  destruct l as [| x l]; simpl.
  - destruct b; reflexivity.
  - rewrite IH. reflexivity.
Qed.

Lemma skipn_add {A} (a b : nat) (l : list A) :
  List.skipn (a + b) l = List.skipn b (List.skipn a l).
Proof.
  revert l. induction a as [| a IH]; intros l; simpl; [reflexivity |].
  destruct l as [| x l]; simpl; [destruct b; reflexivity | apply IH].
Qed.

Lemma In_firstn {A} (n : nat) (l : list A) x : In x (List.firstn n l) -> In x l.
Proof.
  revert l. induction n as [| n IH]; intros [| y l]; simpl; try tauto.
  intros [-> | H]; auto.
Qed.

Lemma In_skipn {A} (n : nat) (l : list A) x : In x (List.skipn n l) -> In x l.
Proof.
  revert l. induction n as [| n IH]; intros [| y l]; simpl; try tauto.
  intros H. right. apply IH, H.
Qed.

(** X19: [get_contacts] returns rows of the store that belong to the
    user, all with the requested favorite flag when one is given, and at
    most [limit] of them; consecutive pages put together are the larger
    page. *)
Theorem get_contacts_own_rows_in_pages
    (db : Session) (skip limit limit2 : nat) (u : User.t) (favorite : option bool) :
  (forall c, In c (repository_contacts.get_contacts db skip limit u favorite) ->
             In c (contacts db)
             /\ Contact.user_id c = User.id u
             /\ (forall f, favorite = Some f -> Contact.favorite c = f))
  /\ (length (repository_contacts.get_contacts db skip limit u favorite) <= limit)%nat
  /\ (repository_contacts.get_contacts db skip limit u favorite
      ++ repository_contacts.get_contacts db (skip + limit) limit2 u favorite)%list
     = repository_contacts.get_contacts db skip (limit + limit2) u favorite.
Proof.
  unfold repository_contacts.get_contacts. split; [| split].
  - intros c Hin. apply In_firstn, In_skipn in Hin.
    destruct favorite as [f |].
    + apply List.filter_In in Hin as [Hin Hf].
      apply List.filter_In in Hin as [Hin Ho].
      apply bool_decide_eq_true_1 in Hf, Ho.
      repeat split; auto. intros f' [= <-]. exact Hf.
    + apply List.filter_In in Hin as [Hin Ho].
      apply bool_decide_eq_true_1 in Ho.
      repeat split; auto. discriminate.
  - apply List.firstn_le_length.
  - rewrite skipn_add, firstn_add. reflexivity.
Qed.

Lemma get_contacts_own_rows_in_pages_witness :
  repository_contacts.get_contacts Scenario.db_contacts 0 10 Sample.alice None
    = [Sample.frank; Sample.carol; Sample.erin]
  /\ In Sample.carol
       (repository_contacts.get_contacts Scenario.db_contacts 1 1 Sample.alice None)
  /\ Contact.user_id Sample.carol = User.id Sample.alice.
Proof.
  split; [reflexivity |].
  assert (Hin : In Sample.carol
            (repository_contacts.get_contacts Scenario.db_contacts 1 1 Sample.alice None))
    by (left; reflexivity).
  split; [exact Hin |].
  apply (get_contacts_own_rows_in_pages Scenario.db_contacts 1 1 0 Sample.alice None),
    Hin.
Defined.

(** ** Changing and deleting a contact *)

Lemma get_contact_by_id_id contact_id db (u : User.t) c :
  get_contact_by_id contact_id db u = Some c ->
  In c (contacts db) /\ Contact.id c = contact_id /\ Contact.user_id c = User.id u.
Proof.
  unfold get_contact_by_id. intros H. apply List.find_some in H as [Hin H].
  apply andb_true_iff in H as [H1 H2].
  apply bool_decide_eq_true_1 in H1, H2. auto.
Qed.

Lemma find_filter_keep {A} (f g : A -> bool) (l : list A) :
  (forall x, f x = true -> g x = true) ->
  List.find f (List.filter g l) = List.find f l.
Proof.
  intros Hfg. induction l as [| x l IH]; simpl; [reflexivity |].
  destruct (f x) eqn:Hf.
  - rewrite (Hfg x Hf). simpl. rewrite Hf. reflexivity.
  - destruct (g x); simpl; [rewrite Hf |]; exact IH.
Qed.

Lemma find_filter_none {A} (f g : A -> bool) (l : list A) :
  (forall x, f x = true -> g x = false) ->
  List.find f (List.filter g l) = None.
Proof.
  intros Hfg. induction l as [| x l IH]; simpl; [reflexivity |].
  destruct (g x) eqn:Hg; simpl; [| exact IH].
  destruct (f x) eqn:Hf; [| exact IH].
  rewrite (Hfg x Hf) in Hg. discriminate.
Qed.

Lemma find_map_keep {A} (f : A -> bool) (g : A -> A) (l : list A) :
  (forall x, f (g x) = f x) ->
  List.find f (List.map g l) = g <$> List.find f l.
Proof.
  intros Hg. induction l as [| x l IH]; simpl; [reflexivity |].
  rewrite Hg. destruct (f x); [reflexivity | exact IH].
Qed.

(** After [delete], the id is not found for the user. *)
Lemma delete_gone (contact_id : Z) (db : Session) (u : User.t) :
  get_contact_by_id contact_id (repository_contacts.delete contact_id db u).2 u = None.
Proof.
  unfold repository_contacts.delete.
  destruct (get_contact_by_id contact_id db u) as [c |] eqn:Hc; simpl; [| exact Hc].
  apply get_contact_by_id_id in Hc as (_ & Hid & _). rewrite Hid.
  unfold get_contact_by_id. simpl. apply find_filter_none.
  intros x Hx. apply andb_true_iff in Hx as [Hx _]. rewrite Hx. reflexivity.
Qed.

(** X20: [delete] removes the contact of that id when the user owns it
    and returns it; otherwise it returns None and leaves the store as it
    is.  In both cases the id is then not found for the user, the users
    are untouched and a lookup of any other id, by any user, is unchanged. *)
Theorem delete_removes_only_own_contact
    (contact_id : Z) (db : Session) (u : User.t) :
  let deleted := (repository_contacts.delete contact_id db u).1 in
  let db' := (repository_contacts.delete contact_id db u).2 in
  deleted = get_contact_by_id contact_id db u
  /\ (deleted = None -> db' = db)
  /\ get_contact_by_id contact_id db' u = None
  /\ users db' = users db
  /\ (forall other (v : User.t), other <> contact_id ->
        get_contact_by_id other db' v = get_contact_by_id other db v).
Proof.
  unfold repository_contacts.delete.
  destruct (get_contact_by_id contact_id db u) as [c |] eqn:Hc; simpl.
  - apply get_contact_by_id_id in Hc as (_ & Hid & _). rewrite Hid.
    split; [reflexivity |]. split; [discriminate |].
    split; [| split; [reflexivity |]].
    + unfold get_contact_by_id. simpl. apply find_filter_none.
      intros x Hx. apply andb_true_iff in Hx as [Hx _]. rewrite Hx. reflexivity.
    + intros other v Hother. unfold get_contact_by_id. simpl.
      apply find_filter_keep. intros x Hx.
      apply andb_true_iff in Hx as [Hx _]. apply bool_decide_eq_true_1 in Hx.
      rewrite bool_decide_eq_false_2 by congruence. reflexivity.
  - repeat split; auto.
Qed.

(** X21: the delete route answers 404 "Not found" and changes nothing
    when the user does not own a contact of that id (absent, or another
    user's); when the user owns it, the route returns, and a second request
    for the same id answers 404. *)
Theorem remove_contact_once
    (contact_id : Z) (db : Session) (current_user : User.t) :
  (get_contact_by_id contact_id db current_user = None ->
   remove_contact contact_id db current_user
   = (RaiseHTTP (mkHTTPException HTTP_404_NOT_FOUND "Not found" []), db))
  /\ (forall c, get_contact_by_id contact_id db current_user = Some c ->
        exists db',
          remove_contact contact_id db current_user = (Return tt, db')
          /\ ~ In c (contacts db')
          /\ remove_contact contact_id db' current_user
             = (RaiseHTTP (mkHTTPException HTTP_404_NOT_FOUND "Not found" []), db')).
Proof.
  split.
  - intros Hnone. unfold remove_contact, repository_contacts.delete.
    rewrite Hnone. reflexivity.
  - intros c Hc.
    pose proof (delete_gone contact_id db current_user) as Hgone.
    unfold remove_contact, repository_contacts.delete in *.
    rewrite Hc in *. simpl in *. eexists. split; [reflexivity |]. split.
    + intros Hin. apply List.filter_In in Hin as [_ Hin].
      rewrite bool_decide_eq_true_2 in Hin by reflexivity. discriminate.
    + rewrite Hgone. reflexivity.
Qed.

(** Bob asks to delete Alice's contact 1, then Alice does, twice. *)
Lemma remove_contact_once_witness :
  remove_contact 1 Scenario.db_contacts Sample.bob
    = (RaiseHTTP (mkHTTPException HTTP_404_NOT_FOUND "Not found" []),
       Scenario.db_contacts)
  /\ exists db',
       remove_contact 1 Scenario.db_contacts Sample.alice = (Return tt, db')
       /\ ~ In Sample.carol (contacts db')
       /\ remove_contact 1 db' Sample.alice
          = (RaiseHTTP (mkHTTPException HTTP_404_NOT_FOUND "Not found" []), db').
Proof.
  destruct (remove_contact_once 1 Scenario.db_contacts Sample.bob) as [Hbob _].
  destruct (remove_contact_once 1 Scenario.db_contacts Sample.alice) as [_ Halice].
  split; [apply Hbob; reflexivity | apply Halice; reflexivity].
Defined.

(** X22: [favorite_update] sets the favorite flag of the user's contact
    and nothing else: the contact is found afterwards with the new flag and
    its other columns as before, a lookup of any other id is the lookup of
    before, and for a contact the user does not own nothing changes. *)
Theorem favorite_update_changes_only_flag
    (contact_id : Z) (body_favorite : bool) (db : Session) (u : User.t) :
  let updated := (repository_contacts.favorite_update contact_id body_favorite db u).1 in
  let db' := (repository_contacts.favorite_update contact_id body_favorite db u).2 in
  updated = (fun c => set_favorite c body_favorite) <$> get_contact_by_id contact_id db u
  /\ get_contact_by_id contact_id db' u = updated
  /\ (updated = None -> db' = db)
  /\ users db' = users db
  /\ (forall other (v : User.t), other <> contact_id ->
        get_contact_by_id other db' v = get_contact_by_id other db v).
Proof.
  unfold repository_contacts.favorite_update.
  destruct (get_contact_by_id contact_id db u) as [c |] eqn:Hc; simpl.
  - pose proof (get_contact_by_id_id _ _ _ _ Hc) as (_ & Hid & _).
    split; [reflexivity |]. split; [| split; [discriminate | split; [reflexivity |]]].
    + unfold get_contact_by_id in *. simpl. rewrite find_map_keep.
      * rewrite Hc. simpl.
        rewrite (bool_decide_eq_true_2 (Contact.id c = Contact.id c) eq_refl).
        reflexivity.
      * intros x. destruct (bool_decide (Contact.id x = Contact.id c)); reflexivity.
    + intros other v Hother. unfold get_contact_by_id. simpl.
      rewrite find_map_keep.
      * destruct (List.find _ (contacts db)) as [x |] eqn:Hx; [| reflexivity].
        simpl. apply List.find_some in Hx as [_ Hx].
        apply andb_true_iff in Hx as [Hx _]. apply bool_decide_eq_true_1 in Hx.
        rewrite bool_decide_eq_false_2 by congruence. reflexivity.
      * intros x. destruct (bool_decide (Contact.id x = Contact.id c)); reflexivity.
  - repeat split; auto.
Qed.

(** Alice deletes her contact 1 (Carol); Bob's contact 2 is still found. *)
Lemma delete_removes_only_own_contact_witness :
  (repository_contacts.delete 1 Scenario.db_contacts Sample.alice).1 = Some Sample.carol
  /\ get_contact_by_id 1
       (repository_contacts.delete 1 Scenario.db_contacts Sample.alice).2 Sample.alice
     = None
  /\ get_contact_by_id 2
       (repository_contacts.delete 1 Scenario.db_contacts Sample.alice).2 Sample.bob
     = get_contact_by_id 2 Scenario.db_contacts Sample.bob
  /\ ((repository_contacts.delete 1 Scenario.db_contacts Sample.bob).1 = None ->
      (repository_contacts.delete 1 Scenario.db_contacts Sample.bob).2
      = Scenario.db_contacts).
Proof.
  destruct (delete_removes_only_own_contact 1 Scenario.db_contacts Sample.alice)
    as (Hdel & _ & Hgone & _ & Hother).
  destruct (delete_removes_only_own_contact 1 Scenario.db_contacts Sample.bob)
    as (_ & Hnone & _).
  split; [rewrite Hdel; reflexivity |]. split; [exact Hgone |].
  split; [apply Hother; lia | exact Hnone].
Defined.

(** Alice marks her contact 1 (Carol) as favorite. *)
Lemma favorite_update_changes_only_flag_witness :
  (repository_contacts.favorite_update 1 true Scenario.db_contacts Sample.alice).1
    = Some Scenario.carol_fav
  /\ get_contact_by_id 1
       (repository_contacts.favorite_update 1 true Scenario.db_contacts Sample.alice).2
       Sample.alice
     = Some Scenario.carol_fav
  /\ get_contact_by_id 4
       (repository_contacts.favorite_update 1 true Scenario.db_contacts Sample.alice).2
       Sample.alice
     = get_contact_by_id 4 Scenario.db_contacts Sample.alice
  /\ ((repository_contacts.favorite_update 1 true Scenario.db_contacts Sample.bob).1 = None ->
      (repository_contacts.favorite_update 1 true Scenario.db_contacts Sample.bob).2
      = Scenario.db_contacts).
Proof.
  destruct (favorite_update_changes_only_flag 1 true Scenario.db_contacts Sample.alice)
    as (Hupd & Hfound & _ & _ & Hother).
  destruct (favorite_update_changes_only_flag 1 true Scenario.db_contacts Sample.bob)
    as (_ & _ & Hnone & _).
  split; [rewrite Hupd; reflexivity |].
  split; [rewrite Hfound, Hupd; reflexivity |].
  split; [apply Hother; lia | exact Hnone].
Defined.

(** ** The birthday search as a filter *)

Lemma scan_birthdays_filter rows now days :
  forall acc,
    scan_birthdays rows now days acc
    = if forallb (birthday_movable now) rows
      then Return (acc ++ List.filter (birthday_due now days) rows)%list
      else Raise ValueError.
Proof.
  induction rows as [| r rows IH]; intros acc; simpl.
  - rewrite List.app_nil_r. reflexivity.
  - unfold birthday_movable at 1, birthday_due at 1, replace_year.
    destruct (Contact.birthday r) as [b |]; simpl; [| apply IH].
    destruct (valid_date (mkdate (year now) (month b) (day b))); simpl;
      [| reflexivity].
    destruct (in_range _ days); rewrite IH; [| reflexivity].
    rewrite <- List.app_assoc. reflexivity.
Qed.

(** X23: [search_birthday] is a filter of the page it visits, in the
    page's order: when every birthday on the page exists in the current
    year, the result is the list of the rows whose birthday, moved to the
    current year, is 0 to [days] days ahead; otherwise the search raises
    ValueError and returns nothing. *)
Theorem search_birthday_is_a_filter_or_ValueError
    (par : BirthdayParams) (db : Session) (u : User.t) (today : date) :
  search_birthday par db u today
  = if forallb (birthday_movable today) (birthday_page par db u)
    then Return (List.filter (birthday_due today (default 7 (par_days par) + 1))
                   (birthday_page par db u))
    else Raise ValueError.
Proof. unfold search_birthday. apply scan_birthdays_filter. Qed.

Lemma in_range_bounds x n : in_range x n = true <-> 0 <= x < n.
Proof. unfold in_range. rewrite andb_true_iff, Z.leb_le, Z.ltb_lt. reflexivity. Qed.

Lemma birthday_page_own_rows par db (u : User.t) c :
  In c (birthday_page par db u) ->
  In c (contacts db) /\ Contact.user_id c = User.id u.
Proof.
  unfold birthday_page, limit, offset. intros Hin.
  assert (Hf : In c (List.filter
                       (fun c => bool_decide (Contact.user_id c = User.id u))
                       (contacts db))).
  { destruct (par_limit par); [apply In_firstn in Hin |];
      (destruct (par_skip par); [apply In_skipn in Hin |]); exact Hin. }
  apply List.filter_In in Hf as [Hc Ho]. apply bool_decide_eq_true_1 in Ho. auto.
Qed.

(** X24: what [search_birthday] returns are rows of the store owned by
    the user, each with a birthday that, moved to the current year, is
    between 0 and [days] days ahead, and at most [limit] of them. *)
Theorem search_birthday_returns_own_upcoming_birthdays
    (par : BirthdayParams) (db : Session) (u : User.t) (today : date)
    (l : list Contact.t) :
  search_birthday par db u today = Return l ->
  (forall c, In c l ->
     In c (contacts db)
     /\ Contact.user_id c = User.id u
     /\ exists b, Contact.birthday c = Some b
                  /\ 0 <= toordinal (mkdate (year today) (month b) (day b))
                          - toordinal today <= default 7 (par_days par))
  /\ (forall k, par_limit par = Some k -> (length l <= k)%nat).
Proof.
  unfold search_birthday. rewrite scan_birthdays_filter.
  destruct (forallb _ _); [| discriminate]. intros [= <-]. split.
  - intros c Hin. apply List.filter_In in Hin as [Hpage Hdue].
    apply birthday_page_own_rows in Hpage as [Hc Ho].
    split; [exact Hc |]. split; [exact Ho |].
    unfold birthday_due in Hdue.
    destruct (Contact.birthday c) as [b |]; [| discriminate].
    exists b. split; [reflexivity |]. apply in_range_bounds in Hdue. lia.
  - intros k Hk.
    etransitivity; [apply List.filter_length_le |].
    unfold birthday_page, limit. rewrite Hk. apply List.firstn_le_length.
Qed.

Lemma search_birthday_returns_own_upcoming_birthdays_witness :
  search_birthday Sample.week Scenario.db_contacts Sample.alice (mkdate 2024 2 25)
    = Return [Sample.erin]
  /\ Contact.user_id Sample.erin = User.id Sample.alice
  /\ (length [Sample.erin] <= 10)%nat.
Proof.
  assert (Hs : search_birthday Sample.week Scenario.db_contacts Sample.alice
                 (mkdate 2024 2 25) = Return [Sample.erin])
    by (vm_compute; reflexivity).
  destruct (search_birthday_returns_own_upcoming_birthdays Sample.week
              Scenario.db_contacts Sample.alice (mkdate 2024 2 25) [Sample.erin] Hs)
    as [Hrows Hlen].
  split; [exact Hs |]. split.
  - apply (Hrows Sample.erin). left. reflexivity.
  - apply (Hlen 10%nat). reflexivity.
Defined.

(** X25: a birthday of 29 February on the visited page makes the whole
    search raise ValueError in every year that is not a leap year, whatever
    the other rows and the days parameter. *)
Theorem search_birthday_raises_on_leap_day
    (par : BirthdayParams) (db : Session) (u : User.t) (today : date)
    (c : Contact.t) (b : date) :
  In c (birthday_page par db u) ->
  Contact.birthday c = Some b ->
  month b = 2 -> day b = 29 ->
  is_leap (year today) = false ->
  search_birthday par db u today = Raise ValueError.
Proof.
  intros Hin Hb Hm Hd Hleap. unfold search_birthday. rewrite scan_birthdays_filter.
  destruct (forallb _ _) eqn:Hall; [| reflexivity].
  rewrite List.forallb_forall in Hall. specialize (Hall c Hin).
  unfold birthday_movable in Hall. rewrite Hb in Hall.
  unfold valid_date, days_in_month in Hall. simpl in Hall.
  rewrite Hm, Hd, Hleap in Hall. simpl in Hall.
  rewrite !andb_false_r in Hall. discriminate.
Qed.

Lemma search_birthday_raises_on_leap_day_witness :
  search_birthday Sample.week Scenario.db_contacts Sample.alice (mkdate 2023 2 25)
  = Raise ValueError.
Proof.
  apply (search_birthday_raises_on_leap_day Sample.week Scenario.db_contacts
           Sample.alice (mkdate 2023 2 25) Sample.erin (mkdate 2000 2 29)).
  - right. right. left. reflexivity.
  - reflexivity.
  - reflexivity.
  - reflexivity.
  - reflexivity.
Defined.

(** X26: for query parameters within the bounds the route declares (days
    and limit from 1 to 30), the birthdays route never answers an empty
    list: a list it returns is non-empty and is the result of
    [search_birthday], a search that finds nothing is answered with 404 "No
    contacts found", and an exception of the search escapes the route. *)
Theorem search_contacts_route_never_empty
    (days : Z) (skip limit : nat) (db : Session) (current_user : User.t)
    (today : date) :
  routes_contacts.birthdays_query_ok days limit = true ->
  let par := mkPar (Some days) (Some skip) (Some limit) in
  let response :=
    routes_contacts.search_contacts days skip limit db current_user today in
  (forall l, response = Return l ->
     l <> [] /\ search_birthday par db current_user today = Return l)
  /\ (search_birthday par db current_user today = Return [] ->
      response = RaiseHTTP (mkHTTPException HTTP_404_NOT_FOUND "No contacts found" []))
  /\ (forall e, search_birthday par db current_user today = Raise e ->
                response = Raise e).
Proof.
  intros Hok. simpl. unfold routes_contacts.search_contacts.
  assert (Hdays : (days =? 0) = false).
  { unfold routes_contacts.birthdays_query_ok in Hok. rewrite !andb_true_iff in Hok.
    destruct Hok as [[[Hge _] _] _]. apply Z.leb_le in Hge. apply Z.eqb_neq. lia. }
  rewrite Hdays.
  destruct (search_birthday _ db current_user today) as [[| c l] | e | e]; simpl;
    (split; [intros l' Hl | split; [intros Hs | intros e' He]]);
    try discriminate; try reflexivity.
  - injection Hl as <-. split; [discriminate | reflexivity].
  - injection He as <-. reflexivity.
Qed.

(** Alice's first two rows: on 30 December 2023 nobody has a birthday
    within a week; on 1 March 2023 Carol has. *)
Lemma search_contacts_route_never_empty_witness :
  routes_contacts.search_contacts 7 0 2 Scenario.db_contacts Sample.alice
    (mkdate 2023 12 30)
  = RaiseHTTP (mkHTTPException HTTP_404_NOT_FOUND "No contacts found" [])
  /\ routes_contacts.search_contacts 7 0 2 Scenario.db_contacts Sample.alice
       (mkdate 2023 3 1)
     = Return [Sample.carol]
  /\ [Sample.carol] <> []
  /\ search_birthday (mkPar (Some 7) (Some 0%nat) (Some 2%nat))
       Scenario.db_contacts Sample.alice (mkdate 2023 3 1)
     = Return [Sample.carol].
Proof.
  destruct (search_contacts_route_never_empty 7 0 2 Scenario.db_contacts Sample.alice
              (mkdate 2023 12 30) eq_refl) as (_ & Hempty & _).
  destruct (search_contacts_route_never_empty 7 0 2 Scenario.db_contacts Sample.alice
              (mkdate 2023 3 1) eq_refl) as (Hlist & _).
  split; [apply Hempty; vm_compute; reflexivity |].
  assert (Hr : routes_contacts.search_contacts 7 0 2 Scenario.db_contacts Sample.alice
                 (mkdate 2023 3 1) = Return [Sample.carol])
    by (vm_compute; reflexivity).
  split; [exact Hr |]. apply Hlist, Hr.
Defined.

(** ** Tokens without a subject *)

(** X27: the verifiers differ on a validly signed, unexpired token of
    their own purpose that carries no subject (issued, within the range of
    datetime, for claims without [sub], [aud], [nbf], [jti] and [at_hash]):
    the resolver answers 401 without reading the cache, while the refresh
    decoder and the email verifier let a KeyError escape. *)
Theorem tokens_without_subject
    (self : TokenManager) (data : gmap string claim) (issued_at now : Z)
    (db : Session) (r : Redis) :
  data !! "sub" = None ->
  data !! "aud" = None -> data !! "nbf" = None ->
  data !! "jti" = None -> data !! "at_hash" = None ->
  in_datetime_range issued_at = true ->
  in_datetime_range (issued_at + 7 * 86400) = true ->
  now <= issued_at + 15 * 60 ->
  get_current_user self (create_access_token self data None issued_at) db r now
    = (RaiseHTTP credentials_exception, r)
  /\ decode_refresh_token self (create_refresh_token self data None issued_at) now
     = Raise (KeyError "sub")
  /\ get_email_from_token self (create_email_token self data issued_at) now
     = Raise (KeyError "sub").
Proof.
  intros Hsub Haud Hnbf Hjti Hat _ _ Hnow.
  pose proof (data_passes_subject data None now Hsub Haud Hnbf Hjti Hat) as Hv.
  unfold get_current_user, decode_refresh_token, get_email_from_token,
    create_access_token, create_refresh_token, create_email_token.
  change (truthy_delta None) with (@None Z). cbv iota.
  rewrite !jwt_decode_issued, Hv, !andb_true_r.
  rewrite !(proj2 (Z.leb_le _ _)) by lia.
  unfold getitem. rewrite !issued_lookup_scope, !issued_lookup_sub, Hsub.
  repeat split.
Qed.

(** Tokens issued for a claim set that holds a private claim only. *)
Lemma tokens_without_subject_witness :
  let data : gmap string claim := {[ "name" := CStr "alice" ]} in
  get_current_user Sample.tm (create_access_token Sample.tm data None 1000)
    Sample.db Scenario.redis_alice 1500
    = (RaiseHTTP credentials_exception, Scenario.redis_alice)
  /\ decode_refresh_token Sample.tm (create_refresh_token Sample.tm data None 1000) 1500
     = Raise (KeyError "sub")
  /\ get_email_from_token Sample.tm (create_email_token Sample.tm data 1000) 1500
     = Raise (KeyError "sub").
Proof.
  apply (tokens_without_subject Sample.tm {[ "name" := CStr "alice" ]} 1000 1500
           Sample.db Scenario.redis_alice); try (vm_compute; reflexivity).
  lia.
Defined.
